(** * Market Bar POS simulator: a shallow embedding of [utils.ts] and [server.ts]

    The development follows the two source files of the simulator.

    - JavaScript numbers are IEEE 754 binary64 values, embedded as Rocq's
      primitive [float]; [Math.round], the truthiness of a number and
      [Number::toString] are written out on that type.
    - JavaScript strings are embedded as [string], read as the UTF-8 bytes
      that [Buffer.from] and [Hmac.update] see.
    - [Map<string, T>] stores are [gmap string T].
    - The counters of the program ([menuVersion], and [retryCount],
      [delay] and the budget [maxRetries] of the webhook loop) are embedded
      as [Z].  A double represents every integer below [2^53] exactly, and
      every [1000 * 2^k] up to [k = 1014]; the counters start at [1], [0]
      and [1000].  The webhook loop is therefore the loop of the source for
      a budget that is an integer of at most 1014, which covers the default
      of 3; the properties of the loop that depend on the budget say so.
    - The clock ([new Date()]), the random identifier ([generateId()]) and
      the network ([fetch]) are inputs of the operations that use them.
    - A handler records what it passes to [broadcast]; the set of
      connected sockets is a state of its own, and the routes that only
      read the stores are left out. *)

From Stdlib Require Import ZArith Floats Uint63 Lia DecimalString.
From stdpp Require Import base gmap strings list.

Set Warnings "-inexact-float".
Local Open Scope string_scope.
Local Open Scope list_scope.
Local Open Scope Z_scope.

(** ** JavaScript values *)

Module JS.

Definition number := float.

(** A completion of a call that may throw. *)
Inductive completion (E A : Type) : Type :=
| Return (a : A)
| Throw (e : E).
Arguments Return {E A} a.
Arguments Throw {E A} e.

Definition isNaN (x : number) : bool :=
  match Prim2SF x with S754_nan => true | _ => false end.

(** [ToBoolean] on a number: [+0], [-0] and [NaN] are falsy. *)
Definition number_truthy (x : number) : bool :=
  match Prim2SF x with
  | S754_zero _ | S754_nan => false
  | _ => true
  end.

(** [ToBoolean] on a string: only the empty string is falsy. *)
Definition string_truthy (s : string) : bool :=
  match s with EmptyString => false | _ => true end.

(** [a || b] on an optional number ([undefined] is [None]). *)
Definition number_or (a : option number) (b : number) : number :=
  match a with
  | Some x => if number_truthy x then x else b
  | None => b
  end.

(** [ToBoolean] on an optional boolean field of a request body. *)
Definition flag (b : option bool) : bool := default false b.

(** The non-zero integer [n], [|n| <= 2^53], as a number. *)
Definition of_Z (n : Z) : number :=
  if n <? 0 then PrimFloat.opp (PrimFloat.of_uint63 (Uint63.of_Z (- n)))
  else PrimFloat.of_uint63 (Uint63.of_Z n).

(** [Math.round(x)]: the integer closest to [x], ties towards [+Infinity];
    [NaN], the infinities and the zeros are returned as they are, and a
    result of zero keeps the sign of [x].  A finite double with a
    non-negative binary exponent is an integer already; otherwise
    [|x| < 2^52] and [floor (x + 1/2)] is computed exactly in [Z]. *)
Definition Math_round (x : number) : number :=
  match Prim2SF x with
  | S754_finite s m e =>
      if 0 <=? e then x
      else
        let d := 2 ^ (- e) in
        let n := (2 * (if s then Z.neg m else Z.pos m) + d) / (2 * d) in
        if n =? 0 then (if s then (-0)%float else 0%float) else of_Z n
  | _ => x
  end.

(** *** [Number::toString] (radix 10) *)

Definition digits_of (n : Z) : string :=
  NilZero.string_of_uint (N.to_uint (Z.to_N n)).

Fixpoint zeros (n : nat) : string :=
  match n with O => "" | S n' => "0" +:+ zeros n' end.

Fixpoint take_str (n : nat) (s : string) : string :=
  match n, s with
  | S n', String c s' => String c (take_str n' s')
  | _, _ => ""
  end.

Fixpoint drop_str (n : nat) (s : string) : string :=
  match n, s with
  | S n', String _ s' => drop_str n' s'
  | _, _ => s
  end.

(** Removes the trailing zeros of a positive integer, counting them. *)
Fixpoint strip_zeros (fuel : nat) (s : Z) (removed : Z) : Z * Z :=
  match fuel with
  | O => (s, removed)
  | S fuel' =>
      if (s mod 10 =? 0) && (0 <? s) then strip_zeros fuel' (s / 10) (removed + 1)
      else (s, removed)
  end.

(** The least [n >= start] with [a / b < 10^n]. *)
Fixpoint decimal_exponent (fuel : nat) (a b : Z) (n : Z) : Z :=
  match fuel with
  | O => n
  | S fuel' =>
      if (if 0 <=? n then a <? 10 ^ n * b else a * 10 ^ (- n) <? b) then n
      else decimal_exponent fuel' a b (n + 1)
  end.

(** The digits [s] and the exponent [n] of step 5 of [Number::toString]
    for the positive double [m * 2^e]: the decimal [s * 10^(n-k)] with the
    fewest digits [k] that rounds to the double, the closest one when there
    are several.  A decimal rounds to the double when it lies between the
    midpoints to the two neighbouring doubles (the midpoints included when
    the mantissa is even).  All quantities are in units of [2^(e-2)]. *)
Fixpoint shortest (todo : nat) (k : Z) (m : positive) (e : Z) (n0 : Z) : Z * Z :=
  let vN := 4 * Z.pos m in
  let below := if (Z.pos m =? 2 ^ 52) && (-1074 <? e) then 1 else 2 in
  let P := if 0 <=? e - 2 then 2 ^ (e - 2) else 1 in
  let D := if 0 <=? e - 2 then 1 else 2 ^ (2 - e) in
  let q := n0 - k in
  let up := if 0 <=? q then 1 else 10 ^ (- q) in
  let B := D * (if 0 <=? q then 10 ^ q else 1) in
  let A := vN * P * up in
  let lo := (vN - below) * P * up in
  let hi := (vN + 2) * P * up in
  let inside c :=
    if Z.even (Z.pos m) then (lo <=? c * B) && (c * B <=? hi)
    else (lo <? c * B) && (c * B <? hi) in
  let s := A / B in
  let pick c := let '(c', z) := strip_zeros 400 c 0 in (c', q + z) in
  match todo with
  | O => pick s
  | S todo' =>
      match inside s && (0 <? s), inside (s + 1) with
      | true, true =>
          let dl := A - s * B in
          let dh := (s + 1) * B - A in
          if dl <? dh then pick s
          else if dh <? dl then pick (s + 1)
          else if Z.even s then pick s else pick (s + 1)
      | true, false => pick s
      | false, true => pick (s + 1)
      | false, false => shortest todo' (k + 1) m e n0
      end
  end.

Definition Number_toString (x : number) : string :=
  match Prim2SF x with
  | S754_nan => "NaN"
  | S754_zero _ => "0"
  | S754_infinity s => if s then "-Infinity" else "Infinity"
  | S754_finite sg m e =>
      let est := (Z.log2 (Z.pos m) + e) * 30103 / 100000 - 1 in
      let a := Z.pos m * (if 0 <=? e then 2 ^ e else 1) in
      let b := if 0 <=? e then 1 else 2 ^ (- e) in
      let n0 := decimal_exponent 8 a b est in
      let '(s, q) := shortest 17 1 m e n0 in
      let ds := digits_of s in
      let k := Z.of_nat (String.length ds) in
      let n := q + k in
      (if sg then "-" else "") +:+
      (if (k <=? n) && (n <=? 21) then ds +:+ zeros (Z.to_nat (n - k))
       else if (0 <? n) && (n <=? 21) then
         take_str (Z.to_nat n) ds +:+ "." +:+ drop_str (Z.to_nat n) ds
       else if (-6 <? n) && (n <=? 0) then
         "0." +:+ zeros (Z.to_nat (- n)) +:+ ds
       else
         let ex := (if 0 <=? n - 1 then "+" else "-") +:+ digits_of (Z.abs (n - 1)) in
         if k =? 1 then ds +:+ "e" +:+ ex
         else take_str 1 ds +:+ "." +:+ drop_str 1 ds +:+ "e" +:+ ex)
  end.

End JS.

(** ** Node's [crypto] and [Buffer], as far as [utils.ts] uses them *)

Module Crypto.

(** A byte is a [Z] in [0, 256); a word is a [Z] in [0, 2^32). *)
Definition Buffer := list Z.

(** [Buffer.from(s)]: the bytes of the string. *)
Fixpoint Buffer_from (s : string) : Buffer :=
  match s with
  | EmptyString => []
  | String c s' => Z.of_N (Ascii.N_of_ascii c) :: Buffer_from s'
  end.

Definition wrap (x : Z) : Z := x mod 2 ^ 32.
Definition add32 (x y : Z) : Z := wrap (x + y).
Definition rotr (n x : Z) : Z :=
  Z.lor (Z.shiftr x n) (wrap (Z.shiftl x (32 - n))).
Definition not32 (x : Z) : Z := Z.lxor x (2 ^ 32 - 1).

Definition Ch (x y z : Z) : Z := Z.lxor (Z.land x y) (Z.land (not32 x) z).
Definition Maj (x y z : Z) : Z :=
  Z.lxor (Z.lxor (Z.land x y) (Z.land x z)) (Z.land y z).
Definition Sigma0 (x : Z) : Z := Z.lxor (Z.lxor (rotr 2 x) (rotr 13 x)) (rotr 22 x).
Definition Sigma1 (x : Z) : Z := Z.lxor (Z.lxor (rotr 6 x) (rotr 11 x)) (rotr 25 x).
Definition sigma0 (x : Z) : Z := Z.lxor (Z.lxor (rotr 7 x) (rotr 18 x)) (Z.shiftr x 3).
Definition sigma1 (x : Z) : Z := Z.lxor (Z.lxor (rotr 17 x) (rotr 19 x)) (Z.shiftr x 10).

(** The first 64 primes. *)
Definition primes : list Z :=
  [ 2; 3; 5; 7; 11; 13; 17; 19; 23; 29; 31; 37; 41; 43; 47; 53; 59; 61; 67; 71;
    73; 79; 83; 89; 97; 101; 103; 107; 109; 113; 127; 131; 137; 139; 149; 151;
    157; 163; 167; 173; 179; 181; 191; 193; 197; 199; 211; 223; 227; 229; 233;
    239; 241; 251; 257; 263; 269; 271; 277; 281; 283; 293; 307; 311 ].

(** The integer cube root, bit by bit from [2^(bits-1)] down. *)
Fixpoint cube_root (bits : nat) (n r : Z) : Z :=
  match bits with
  | O => r
  | S bits' =>
      let c := r + 2 ^ Z.of_nat bits' in
      cube_root bits' n (if c * c * c <=? n then c else r)
  end.

(** The first 32 bits of the fractional part of the cube root and of the
    square root of [p]. *)
Definition frac_cube_root (p : Z) : Z := cube_root 40 (p * 2 ^ 96) 0 mod 2 ^ 32.
Definition frac_square_root (p : Z) : Z := Z.sqrt (p * 2 ^ 64) mod 2 ^ 32.

(** The round constants of SHA-256. *)
Definition K256 : list Z := Eval vm_compute in map frac_cube_root primes.

(** The eight working variables, also the chaining value. *)
Record hash := Hash { ha : Z; hb : Z; hc : Z; hd : Z; he : Z; hf : Z; hg : Z; hh : Z }.

(** The initial hash value of SHA-256. *)
Definition H0 : hash :=
  Eval vm_compute in
    Hash (frac_square_root 2) (frac_square_root 3) (frac_square_root 5)
         (frac_square_root 7) (frac_square_root 11) (frac_square_root 13)
         (frac_square_root 17) (frac_square_root 19).

Fixpoint words_of_bytes (l : list Z) : list Z :=
  match l with
  | a :: b :: c :: d :: r =>
      (a * 2 ^ 24 + b * 2 ^ 16 + c * 2 ^ 8 + d) :: words_of_bytes r
  | _ => []
  end.

(** The message schedule, most recent word first. *)
Fixpoint schedule (n : nat) (w : list Z) : list Z :=
  match n with
  | O => w
  | S n' =>
      let next :=
        add32 (add32 (sigma1 (nth 1 w 0)) (nth 6 w 0))
              (add32 (sigma0 (nth 14 w 0)) (nth 15 w 0)) in
      schedule n' (next :: w)
  end.

Definition round (s : hash) (kw : Z * Z) : hash :=
  let t1 := add32 (add32 (add32 (hh s) (Sigma1 (he s))) (Ch (he s) (hf s) (hg s)))
                  (add32 (fst kw) (snd kw)) in
  let t2 := add32 (Sigma0 (ha s)) (Maj (ha s) (hb s) (hc s)) in
  Hash (add32 t1 t2) (ha s) (hb s) (hc s) (add32 (hd s) t1) (he s) (hf s) (hg s).

Definition compress (h : hash) (block : list Z) : hash :=
  let w := rev (schedule 48 (rev block)) in
  let s := fold_left round (combine K256 w) h in
  Hash (add32 (ha h) (ha s)) (add32 (hb h) (hb s)) (add32 (hc h) (hc s))
       (add32 (hd h) (hd s)) (add32 (he h) (he s)) (add32 (hf h) (hf s))
       (add32 (hg h) (hg s)) (add32 (hh h) (hh s)).

Fixpoint blocks (fuel : nat) (h : hash) (ws : list Z) : hash :=
  match fuel, ws with
  | S fuel', _ :: _ => blocks fuel' (compress h (take 16 ws)) (drop 16 ws)
  | _, _ => h
  end.

Definition pad (msg : list Z) : list Z :=
  let len := Z.of_nat (length msg) in
  let fill := (55 - len) mod 64 in
  let bits := 8 * len in
  msg ++ [0x80] ++ repeat 0 (Z.to_nat fill)
      ++ map (fun i => (bits / 2 ^ (8 * (7 - Z.of_nat i))) mod 256) (seq 0 8).

Definition sha256 (msg : list Z) : hash :=
  let ws := words_of_bytes (pad msg) in
  blocks (length ws) H0 ws.

Definition bytes_of_word (w : Z) : list Z :=
  [ (w / 2 ^ 24) mod 256; (w / 2 ^ 16) mod 256; (w / 2 ^ 8) mod 256; w mod 256 ].

Definition digest (h : hash) : list Z :=
  bytes_of_word (ha h) ++ bytes_of_word (hb h) ++ bytes_of_word (hc h)
    ++ bytes_of_word (hd h) ++ bytes_of_word (he h) ++ bytes_of_word (hf h)
    ++ bytes_of_word (hg h) ++ bytes_of_word (hh h).

Definition hmac_sha256 (key msg : list Z) : hash :=
  let k0 := if (64 <? length key)%nat then digest (sha256 key) else key in
  let k := k0 ++ repeat 0 (64 - length k0)%nat in
  sha256 (map (Z.lxor 0x5c) k ++ digest (sha256 (map (Z.lxor 0x36) k ++ msg))).

Definition hex_digit (d : Z) : Ascii.ascii :=
  Ascii.ascii_of_N (Z.to_N (if d <? 10 then 48 + d else 87 + d)).

Definition hex_byte (b : Z) : string :=
  String (hex_digit ((b / 16) mod 16)) (String (hex_digit (b mod 16)) "").

Definition hex_word (w : Z) : string :=
  hex_byte ((w / 2 ^ 24) mod 256) +:+ hex_byte ((w / 2 ^ 16) mod 256)
    +:+ hex_byte ((w / 2 ^ 8) mod 256) +:+ hex_byte (w mod 256).

(** [hash.digest('hex')] *)
Definition hex (h : hash) : string :=
  hex_word (ha h) +:+ hex_word (hb h) +:+ hex_word (hc h) +:+ hex_word (hd h)
    +:+ hex_word (he h) +:+ hex_word (hf h) +:+ hex_word (hg h) +:+ hex_word (hh h).

(** [crypto.createHmac('sha256', key).update(data).digest('hex')] *)
Definition createHmac_sha256_hex (key data : string) : string :=
  hex (hmac_sha256 (Buffer_from key) (Buffer_from data)).

Record Error := mkError { name : string; message : string }.

Definition new_Error (msg : string) : Error := mkError "Error" msg.

(** [crypto.timingSafeEqual(a, b)]: throws a [RangeError] when the two
    buffers differ in byte length, and compares them otherwise. *)
Definition timingSafeEqual (a b : Buffer) : JS.completion Error bool :=
  if (length a =? length b)%nat then JS.Return (bool_decide (a = b))
  else JS.Throw (mkError "RangeError" "Input buffers must have the same byte length").

End Crypto.

(** ** [types.ts] *)

(** The reading of the clock by [new Date()]: the time value and the string
    [toISOString()] gives for it. *)
Record Date := mkDate { getTime : Z; toISOString : string }.

Module CatalogItem.
Record t := mk {
  id : string;
  name : string;
  category : string;
  price : JS.number;
  minPrice : JS.number;
  maxPrice : JS.number;
  taxRate : JS.number;
  isActive : bool;
  createdAt : Date;
  updatedAt : Date;
}.
End CatalogItem.

Module OrderItem.
Record t := mk {
  itemId : string;
  name : string;
  price : JS.number;
  quantity : JS.number;
  subtotal : JS.number;
}.
End OrderItem.

Inductive OrderStatus := pending | completed | cancelled.

Module Order.
Record t := mk {
  id : string;
  items : list OrderItem.t;
  subtotal : JS.number;
  tax : JS.number;
  total : JS.number;
  status : OrderStatus;
  createdAt : Date;
}.
End Order.

Inductive PromotionKind := percent_off | amount_off.

(** [startsAt] and [endsAt] hold the string the [Date] is built from. *)
Module Promotion.
Record t := mk {
  id : string;
  itemId : string;
  kind : PromotionKind;
  value : JS.number;
  startsAt : option string;
  endsAt : option string;
  isActive : bool;
  createdAt : Date;
}.
End Promotion.

Module WebhookItem.
Record t := mk {
  itemId : string;
  name : string;
  quantity : JS.number;
  price : JS.number;
}.
End WebhookItem.

Module WebhookPayload.
Record t := mk {
  orderId : string;
  venueId : string;
  timestamp : string;
  items : list WebhookItem.t;
  subtotal : JS.number;
  tax : JS.number;
  total : JS.number;
}.
End WebhookPayload.

(** Request bodies as [express.json()] hands them over: a field the handler
    tests for presence is an [option]. *)
Module PriceUpdateRequest.
Record t := mk {
  price : option JS.number;
  publish : option bool;
  overrideGuardrails : option bool;
}.
End PriceUpdateRequest.

Module CreateItemRequest.
Record t := mk {
  name : option string;
  category : option string;
  price : option JS.number;
  minPrice : option JS.number;
  maxPrice : option JS.number;
  taxRate : option JS.number;
}.
End CreateItemRequest.

Module UpdateItemRequest.
Record t := mk {
  name : option string;
  category : option string;
  price : option JS.number;
  minPrice : option JS.number;
  maxPrice : option JS.number;
  taxRate : option JS.number;
  isActive : option bool;
}.
End UpdateItemRequest.

Module OrderLine.
Record t := mk { itemId : string; qty : JS.number }.
End OrderLine.

Module CreateOrderRequest.
Record t := mk { items : option (list OrderLine.t) }.
End CreateOrderRequest.

Module CreatePromotionRequest.
Record t := mk {
  itemId : option string;
  kind : option PromotionKind;
  value : option JS.number;
  startsAt : option string;
  endsAt : option string;
}.
End CreatePromotionRequest.

(** The [data] of a [WebSocketMessage], one constructor per shape the server
    builds. *)
Inductive MessageData :=
| ItemPublished (menuVersion : Z) (item : CatalogItem.t)
| ItemDeleted (menuVersion : Z) (deletedItemId : string)
| MenuPublished (menuVersion : Z)
| PriceUpdated (itemId name : string) (oldPrice newPrice : JS.number)
               (menuVersion : option Z)
| PromotionCreated (promotion : Promotion.t)
| OrderCreated (order : Order.t).

Inductive EventName :=
| order_created | price_updated | menu_published | promotion_created.

Module WebSocketMessage.
Record t := mk { event : EventName; data : MessageData; ts : string }.
End WebSocketMessage.

(** ** [utils.ts] *)

Module Utils.
Import JS Crypto.

(** [generateHmacSignature(payload, secret)] *)
Definition generateHmacSignature (payload secret : string) : string :=
  createHmac_sha256_hex secret payload.

(** [verifyHmacSignature(payload, signature, secret)] *)
Definition verifyHmacSignature (payload signature secret : string)
  : completion Error bool :=
  let expectedSignature := generateHmacSignature payload secret in
  timingSafeEqual (Buffer_from signature) (Buffer_from expectedSignature).

(** *** [JSON.stringify] of a [WebhookPayload] *)

Definition JSON_escape (c : Ascii.ascii) : string :=
  let n := Z.of_N (Ascii.N_of_ascii c) in
  if n =? 34 then "\" +:+ String c ""
  else if n =? 92 then "\\"
  else if n =? 8 then "\b"
  else if n =? 9 then "\t"
  else if n =? 10 then "\n"
  else if n =? 12 then "\f"
  else if n =? 13 then "\r"
  else if n <? 32 then "\u00" +:+ hex_byte n
  else String c "".

Fixpoint JSON_chars (s : string) : string :=
  match s with
  | EmptyString => ""
  | String c s' => JSON_escape c +:+ JSON_chars s'
  end.

Definition quote : string := String (Ascii.ascii_of_N 34) "".

Definition JSON_string (s : string) : string := quote +:+ JSON_chars s +:+ quote.

Definition JSON_number (x : number) : string :=
  match Prim2SF x with
  | S754_nan | S754_infinity _ => "null"
  | _ => Number_toString x
  end.

Definition JSON_key (k : string) : string := JSON_string k +:+ ":".

Fixpoint JSON_join (l : list string) : string :=
  match l with
  | [] => ""
  | [x] => x
  | x :: r => x +:+ "," +:+ JSON_join r
  end.

Definition JSON_item (i : WebhookItem.t) : string :=
  "{" +:+ JSON_join
    [ JSON_key "itemId" +:+ JSON_string (WebhookItem.itemId i);
      JSON_key "name" +:+ JSON_string (WebhookItem.name i);
      JSON_key "quantity" +:+ JSON_number (WebhookItem.quantity i);
      JSON_key "price" +:+ JSON_number (WebhookItem.price i) ] +:+ "}".

Definition JSON_stringify (p : WebhookPayload.t) : string :=
  "{" +:+ JSON_join
    [ JSON_key "orderId" +:+ JSON_string (WebhookPayload.orderId p);
      JSON_key "venueId" +:+ JSON_string (WebhookPayload.venueId p);
      JSON_key "timestamp" +:+ JSON_string (WebhookPayload.timestamp p);
      JSON_key "items" +:+ "[" +:+ JSON_join (map JSON_item (WebhookPayload.items p)) +:+ "]";
      JSON_key "subtotal" +:+ JSON_number (WebhookPayload.subtotal p);
      JSON_key "tax" +:+ JSON_number (WebhookPayload.tax p);
      JSON_key "total" +:+ JSON_number (WebhookPayload.total p) ] +:+ "}".

(** *** [sendWebhook] *)

(** What one call of [fetch] comes back with: a response with its status,
    or a rejection (a transport-level failure). *)
Inductive FetchResult :=
| Responds (status : Z)
| Rejects (e : Error).

(** [response.ok] *)
Definition ok (status : Z) : bool := (200 <=? status) && (status <=? 299).

(** The network as [sendWebhook] meets it: the outcome of its [i]-th call
    of [fetch], counted from [0]. *)
Definition Network := nat -> FetchResult.

(** What the webhook task does that can be observed from outside: the calls
    of [fetch] and [sleep], and the lines it logs ([LogFailedToSend] is the
    line of the [catch] that [server.ts] attaches to the promise). *)
Inductive Action :=
| Fetch (url : string) (headers : list (string * string)) (body : string)
| Sleep (ms : Z)
| LogSent (url : string)
| LogRetryStatus (status : Z) (delay : Z)
| LogRetryError (e : Error) (delay : Z)
| LogGiveUp (attempts : Z) (e : Error)
| LogFailedToSend (e : Error).

Record LoopState := mkLoop { retryCount : Z; delay : Z }.

(** After a failed attempt with retries left: [await sleep(delay);
    delay *= 2; retryCount++]. *)
Definition backoff (st : LoopState) : LoopState :=
  mkLoop (retryCount st + 1) (delay st * 2).

(** The rest of the [try] block once [fetch] has settled.  [Return None] is
    the [return] of the function, [Return (Some st)] falls through to the
    next test of the loop condition. *)
Definition try_block (url : string) (maxRetries : Z) (st : LoopState) (r : FetchResult)
  : list Action * completion Error (option LoopState) :=
  match r with
  | Rejects e => ([], Throw e)
  | Responds status =>
      if ok status then ([LogSent url], Return None)
      else if retryCount st <? maxRetries then
        ([LogRetryStatus status (delay st); Sleep (delay st)], Return (Some (backoff st)))
      else
        ([], Throw (new_Error ("Webhook failed with status " +:+ digits_of status)))
  end.

(** The [catch] block. *)
Definition catch_block (maxRetries : Z) (st : LoopState) (error : Error)
  : list Action * completion Error (option LoopState) :=
  if retryCount st <? maxRetries then
    ([LogRetryError error (delay st); Sleep (delay st)], Return (Some (backoff st)))
  else
    ([LogGiveUp (maxRetries + 1) error], Throw error).

(** One turn of the [while] body. *)
Definition attempt (url signature payloadString : string) (maxRetries : Z)
    (st : LoopState) (r : FetchResult)
  : list Action * completion Error (option LoopState) :=
  let request :=
    Fetch url
      [ ("Content-Type", "application/json");
        ("x-pos-event", "order.created");
        ("x-pos-signature", signature) ]
      payloadString in
  match try_block url maxRetries st r with
  | (acts, Throw e) =>
      let '(acts', c) := catch_block maxRetries st e in
      (request :: acts ++ acts', c)
  | (acts, c) => (request :: acts, c)
  end.

(** [while (retryCount <= maxRetries) { ... }]; [None] when the fuel runs
    out before the loop is left. *)
Fixpoint while_loop (fuel : nat) (net : Network) (i : nat)
    (url signature payloadString : string) (maxRetries : Z) (st : LoopState)
  : option (list Action * completion Error unit) :=
  match fuel with
  | O => None
  | S fuel' =>
      if retryCount st <=? maxRetries then
        match attempt url signature payloadString maxRetries st (net i) with
        | (acts, Throw e) => Some (acts, Throw e)
        | (acts, Return None) => Some (acts, Return tt)
        | (acts, Return (Some st')) =>
            match while_loop fuel' net (S i) url signature payloadString maxRetries st' with
            | Some (acts', c) => Some (acts ++ acts', c)
            | None => None
            end
        end
      else Some ([], Return tt)
  end.

(** [sendWebhook(url, payload, secret, maxRetries)] run against a network:
    its actions in order, and whether the promise is fulfilled or rejected.
    Every turn of the loop that does not leave it increments [retryCount],
    so one turn more than [maxRetries + 1] is enough.  The budget is an
    integer here: the embedding is that of the calls whose [maxRetries] is
    an integer of at most 1014, for which [retryCount] and every delay
    [1000 * 2^k] that the loop computes are doubles; a budget with a
    fraction, an infinite budget or NaN is not embedded. *)
Definition sendWebhook (net : Network) (url : string) (payload : WebhookPayload.t)
    (secret : string) (maxRetries : Z)
  : option (list Action * completion Error unit) :=
  let payloadString := JSON_stringify payload in
  let signature := generateHmacSignature payloadString secret in
  while_loop (S (Z.to_nat (maxRetries + 1))) net 0 url signature payloadString
    maxRetries (mkLoop 0 1000).

(** The default of the [maxRetries] parameter. *)
Definition default_maxRetries : Z := 3.

(** *** [validatePrice] *)

Record Validation := mkValidation { valid : bool; message : option string }.

Definition validatePrice (item : CatalogItem.t) (newPrice : number)
    (overrideGuardrails : bool) : Validation :=
  if overrideGuardrails then mkValidation true None
  else if (newPrice <? CatalogItem.minPrice item)%float then
    mkValidation false
      (Some ("Price $" +:+ Number_toString newPrice +:+ " is below minimum $"
               +:+ Number_toString (CatalogItem.minPrice item)))
  else if (CatalogItem.maxPrice item <? newPrice)%float then
    mkValidation false
      (Some ("Price $" +:+ Number_toString newPrice +:+ " is above maximum $"
               +:+ Number_toString (CatalogItem.maxPrice item)))
  else mkValidation true None.

(** *** [calculateOrderTotals] *)

Record OrderTotals := mkTotals {
  items : list OrderItem.t;
  subtotal : number;
  tax : number;
  total : number;
}.

(** The [for ... of] loop, with the three accumulators it updates. *)
Fixpoint for_items (lines : list OrderLine.t) (catalog : gmap string CatalogItem.t)
    (subtotal totalTax : number) (orderItems : list OrderItem.t)
  : completion Error (number * number * list OrderItem.t) :=
  match lines with
  | [] => Return (subtotal, totalTax, orderItems)
  | item :: rest =>
      match catalog !! OrderLine.itemId item with
      | None => Throw (new_Error ("Item " +:+ OrderLine.itemId item +:+ " not found"))
      | Some catalogItem =>
          let itemSubtotal := (CatalogItem.price catalogItem * OrderLine.qty item)%float in
          let itemTax := (itemSubtotal * CatalogItem.taxRate catalogItem)%float in
          for_items rest catalog
            (subtotal + itemSubtotal)%float (totalTax + itemTax)%float
            (orderItems ++
               [ OrderItem.mk (OrderLine.itemId item) (CatalogItem.name catalogItem)
                   (CatalogItem.price catalogItem) (OrderLine.qty item) itemSubtotal ])
      end
  end.

Definition calculateOrderTotals (lines : list OrderLine.t)
    (catalog : gmap string CatalogItem.t) : completion Error OrderTotals :=
  match for_items lines catalog 0%float 0%float [] with
  | Throw e => Throw e
  | Return (subtotal, totalTax, orderItems) =>
      Return (mkTotals orderItems
                (Math_round (subtotal * 100) / 100)%float
                (Math_round (totalTax * 100) / 100)%float
                (Math_round ((subtotal + totalTax) * 100) / 100)%float)
  end.

(** *** [getSeedItems]; [generateId] is [gen], called five times. *)

Definition seed (id name category : string) (price minPrice maxPrice : number)
    (now : Date) : CatalogItem.t :=
  CatalogItem.mk id name category price minPrice maxPrice 0.0825%float true now now.

Definition getSeedItems (gen : nat -> string) (now : Date) : list CatalogItem.t :=
  [ seed (gen 0%nat) "IPA Pint" "Beer" 7%float 5%float 12%float now;
    seed (gen 1%nat) "Lager Pint" "Beer" 6%float 4%float 10%float now;
    seed (gen 2%nat) "House Margarita" "Cocktails" 12%float 9%float 18%float now;
    seed (gen 3%nat) "Old Fashioned" "Cocktails" 14%float 11%float 20%float now;
    seed (gen 4%nat) "Frozen Daiquiri" "Cocktails" 10%float 8%float 16%float now ].

End Utils.


(** ** [server.ts]

    A handler is a function of the configuration, of what it reads from the
    outside (the clock and [generateId]), of the stores and of the request;
    it gives the stores after the request, the response, and what it passed
    to [broadcast] and to the detached webhook task, in order. *)

Module Server.
Import JS Crypto Utils.

Record Config := mkConfig {
  API_KEY : string;
  WEBHOOK_SECRET : string;
  MARKETBAR_WEBHOOK_URL : string;
}.

(** The configuration when the environment sets none of the variables. *)
Definition default_config : Config := mkConfig "pos-sim-dev-key" "supersecret" "".

Record State := mkState {
  catalog : gmap string CatalogItem.t;
  orders : gmap string Order.t;
  promotions : gmap string Promotion.t;
  menuVersion : Z;
}.

(** The stores when the server starts. *)
Definition initial (gen : nat -> string) (now : Date) : State :=
  mkState
    (fold_left (fun c item => <[CatalogItem.id item := item]> c) (getSeedItems gen now) ∅)
    ∅ ∅ 1.

Record Env := mkEnv { now : Date; generateId : string }.

Inductive Body :=
| ErrorBody (error : option string)
| ItemBody (item : CatalogItem.t)
| DeletedBody (id : string) (menuVersion : Z)
| PriceBody (item : CatalogItem.t) (menuVersion : Z) (published : bool)
| PromotionBody (promotion : Promotion.t)
| PublishedBody (menuVersion : Z) (publishedAt : string)
| OrderBody (order : Order.t).

Record Response := mkResponse { status : Z; body : Body }.

Inductive Effect :=
| Broadcast (message : WebSocketMessage.t)
| SendWebhook (url : string) (payload : WebhookPayload.t) (secret : string).

Definition Result : Type := State * Response * list Effect.

Definition reply (st : State) (code : Z) (b : Body) : Result :=
  (st, mkResponse code b, []).

Definition fail (st : State) (code : Z) (msg : string) : Result :=
  reply st code (ErrorBody (Some msg)).

(** [requireApiKey] *)
Definition requireApiKey (cfg : Config) (providedKey : option string) : bool :=
  match providedKey with
  | Some k => string_truthy k && String.eqb k (API_KEY cfg)
  | None => false
  end.

Definition unauthorized (st : State) : Result :=
  fail st 401 "Unauthorized: Invalid API key".

(** [!body.field] on an optional string. *)
Definition present (s : option string) : option string :=
  match s with
  | Some x => if string_truthy x then Some x else None
  | None => None
  end.

(** [POST /catalog/items] *)
Definition create_item (env : Env) (st : State) (body : CreateItemRequest.t) : Result :=
  match present (CreateItemRequest.name body), present (CreateItemRequest.category body),
        CreateItemRequest.price body, CreateItemRequest.minPrice body,
        CreateItemRequest.maxPrice body with
  | Some name, Some category, Some price, Some minPrice, Some maxPrice =>
      let item :=
        CatalogItem.mk (generateId env) name category price minPrice maxPrice
          (number_or (CreateItemRequest.taxRate body) 0.0825%float)
          true (now env) (now env) in
      let version := menuVersion st + 1 in
      (mkState (<[CatalogItem.id item := item]> (catalog st)) (orders st) (promotions st) version,
       mkResponse 201 (ItemBody item),
       [ Broadcast (WebSocketMessage.mk menu_published (ItemPublished version item)
                      (toISOString (now env))) ])
  | _, _, _, _, _ => fail st 400 "Missing required fields"
  end.

(** The assignments of [PATCH /catalog/items/:id] to the item. *)
Definition patch (item : CatalogItem.t) (body : UpdateItemRequest.t) (at_ : Date)
  : CatalogItem.t :=
  CatalogItem.mk
    (CatalogItem.id item)
    (default (CatalogItem.name item) (UpdateItemRequest.name body))
    (default (CatalogItem.category item) (UpdateItemRequest.category body))
    (default (CatalogItem.price item) (UpdateItemRequest.price body))
    (default (CatalogItem.minPrice item) (UpdateItemRequest.minPrice body))
    (default (CatalogItem.maxPrice item) (UpdateItemRequest.maxPrice body))
    (default (CatalogItem.taxRate item) (UpdateItemRequest.taxRate body))
    (default (CatalogItem.isActive item) (UpdateItemRequest.isActive body))
    (CatalogItem.createdAt item)
    at_.

(** [PATCH /catalog/items/:id] *)
Definition update_item (env : Env) (st : State) (id : string)
    (body : UpdateItemRequest.t) : Result :=
  match catalog st !! id with
  | None => fail st 404 "Item not found"
  | Some item =>
      let item' := patch item body (now env) in
      let version := menuVersion st + 1 in
      (mkState (<[id := item']> (catalog st)) (orders st) (promotions st) version,
       mkResponse 200 (ItemBody item'),
       [ Broadcast (WebSocketMessage.mk menu_published (ItemPublished version item')
                      (toISOString (CatalogItem.updatedAt item'))) ])
  end.

(** [DELETE /catalog/items/:id] *)
Definition delete_item (env : Env) (st : State) (id : string) : Result :=
  match catalog st !! id with
  | None => fail st 404 "Item not found"
  | Some _ =>
      let version := menuVersion st + 1 in
      (mkState (delete id (catalog st)) (orders st) (promotions st) version,
       mkResponse 200 (DeletedBody id version),
       [ Broadcast (WebSocketMessage.mk menu_published (ItemDeleted version id)
                      (toISOString (now env))) ])
  end.

(** The two assignments of [POST /pricing/:itemId] to the item. *)
Definition reprice (item : CatalogItem.t) (price : number) (at_ : Date) : CatalogItem.t :=
  CatalogItem.mk
    (CatalogItem.id item) (CatalogItem.name item) (CatalogItem.category item)
    price
    (CatalogItem.minPrice item) (CatalogItem.maxPrice item) (CatalogItem.taxRate item)
    (CatalogItem.isActive item) (CatalogItem.createdAt item)
    at_.

(** [POST /pricing/:itemId] *)
Definition update_price (env : Env) (st : State) (itemId : string)
    (body : PriceUpdateRequest.t) : Result :=
  match PriceUpdateRequest.price body with
  | None => fail st 400 "Price is required"
  | Some price =>
      match catalog st !! itemId with
      | None => fail st 404 "Item not found"
      | Some item =>
          let validation :=
            validatePrice item price (flag (PriceUpdateRequest.overrideGuardrails body)) in
          if negb (valid validation) then reply st 400 (ErrorBody (message validation))
          else
            let oldPrice := CatalogItem.price item in
            let item' := reprice item price (now env) in
            let publish := flag (PriceUpdateRequest.publish body) in
            let version := if publish then menuVersion st + 1 else menuVersion st in
            (mkState (<[itemId := item']> (catalog st)) (orders st) (promotions st) version,
             mkResponse 200 (PriceBody item' version publish),
             [ Broadcast
                 (WebSocketMessage.mk price_updated
                    (PriceUpdated itemId (CatalogItem.name item') oldPrice price
                       (if publish then Some version else None))
                    (toISOString (CatalogItem.updatedAt item'))) ])
      end
  end.

(** [POST /promotions] *)
Definition create_promotion (env : Env) (st : State) (body : CreatePromotionRequest.t)
  : Result :=
  match present (CreatePromotionRequest.itemId body), CreatePromotionRequest.kind body,
        CreatePromotionRequest.value body with
  | Some itemId, Some kind, Some value =>
      match catalog st !! itemId with
      | None => fail st 404 "Item not found"
      | Some _ =>
          let promotion :=
            Promotion.mk (generateId env) itemId kind value
              (present (CreatePromotionRequest.startsAt body))
              (present (CreatePromotionRequest.endsAt body))
              true (now env) in
          (mkState (catalog st) (orders st)
             (<[Promotion.id promotion := promotion]> (promotions st)) (menuVersion st),
           mkResponse 201 (PromotionBody promotion),
           [ Broadcast (WebSocketMessage.mk promotion_created (PromotionCreated promotion)
                          (toISOString (now env))) ])
      end
  | _, _, _ => fail st 400 "Missing required fields"
  end.

(** [POST /menu/publish] *)
Definition publish_menu (env : Env) (st : State) : Result :=
  let version := menuVersion st + 1 in
  (mkState (catalog st) (orders st) (promotions st) version,
   mkResponse 200 (PublishedBody version (toISOString (now env))),
   [ Broadcast (WebSocketMessage.mk menu_published (MenuPublished version)
                  (toISOString (now env))) ]).

(** [POST /orders] *)
Definition create_order (cfg : Config) (env : Env) (st : State)
    (body : CreateOrderRequest.t) : Result :=
  match CreateOrderRequest.items body with
  | None | Some [] => fail st 400 "Items array is required and must not be empty"
  | Some lines =>
      match calculateOrderTotals lines (catalog st) with
      | Throw error => fail st 400 (Crypto.message error)
      | Return orderCalculation =>
          let order :=
            Order.mk (generateId env)
              (map (fun item =>
                      OrderItem.mk (OrderItem.itemId item) (OrderItem.name item)
                        (OrderItem.price item) (OrderItem.quantity item)
                        (OrderItem.subtotal item))
                   (items orderCalculation))
              (subtotal orderCalculation) (tax orderCalculation) (total orderCalculation)
              completed (now env) in
          let webhookPayload :=
            WebhookPayload.mk (Order.id order) "pos-sim-venue-001" (toISOString (now env))
              (map (fun item =>
                      WebhookItem.mk (OrderItem.itemId item) (OrderItem.name item)
                        (OrderItem.quantity item) (OrderItem.price item))
                   (Order.items order))
              (Order.subtotal order) (Order.tax order) (Order.total order) in
          (mkState (catalog st) (<[Order.id order := order]> (orders st)) (promotions st)
             (menuVersion st),
           mkResponse 201 (OrderBody order),
           Broadcast (WebSocketMessage.mk order_created (OrderCreated order)
                        (toISOString (now env)))
             :: (if string_truthy (MARKETBAR_WEBHOOK_URL cfg)
                 then [ SendWebhook (MARKETBAR_WEBHOOK_URL cfg) webhookPayload
                          (WEBHOOK_SECRET cfg) ]
                 else []))
      end
  end.

(** The requests that change the stores, each with the [x-api-key] header
    where the route is behind [requireApiKey]. *)
Inductive Request :=
| POST_catalog_items (key : option string) (body : CreateItemRequest.t)
| PATCH_catalog_items (key : option string) (id : string) (body : UpdateItemRequest.t)
| DELETE_catalog_items (key : option string) (id : string)
| POST_pricing (key : option string) (itemId : string) (body : PriceUpdateRequest.t)
| POST_promotions (key : option string) (body : CreatePromotionRequest.t)
| POST_menu_publish (key : option string)
| POST_orders (body : CreateOrderRequest.t).

Definition guarded (cfg : Config) (key : option string) (st : State) (r : Result) : Result :=
  if requireApiKey cfg key then r else unauthorized st.

Definition handle (cfg : Config) (env : Env) (st : State) (req : Request) : Result :=
  match req with
  | POST_catalog_items key body => guarded cfg key st (create_item env st body)
  | PATCH_catalog_items key id body => guarded cfg key st (update_item env st id body)
  | DELETE_catalog_items key id => guarded cfg key st (delete_item env st id)
  | POST_pricing key itemId body => guarded cfg key st (update_price env st itemId body)
  | POST_promotions key body => guarded cfg key st (create_promotion env st body)
  | POST_menu_publish key => guarded cfg key st (publish_menu env st)
  | POST_orders body => create_order cfg env st body
  end.

(** The stores after a request. *)
Definition after (r : Result) : State := fst (fst r).

(** The server over a sequence of requests, each with its own reading of the
    clock and of [generateId]. *)
Fixpoint run (cfg : Config) (st : State) (reqs : list (Env * Request)) : State :=
  match reqs with
  | [] => st
  | (env, req) :: rest => run cfg (after (handle cfg env st req)) rest
  end.

(** The detached task that [POST /orders] starts:
    [sendWebhook(url, payload, secret).catch(error => console.error(...))]. *)
Definition webhook_task (net : Network) (url : string) (payload : WebhookPayload.t)
    (secret : string) : option (list Action * completion Error unit) :=
  match sendWebhook net url payload secret default_maxRetries with
  | Some (acts, Throw error) => Some (acts ++ [LogFailedToSend error], Return tt)
  | r => r
  end.

End Server.


(** ** The quantities the specification speaks of *)

Module Spec.
Import JS Utils Server.

(** Rounding to two decimals, as the rounding helper does it. *)
Definition round2 (x : number) : number := (Math_round (x * 100) / 100)%float.

(** A monetary value is rounded to two decimals when rounding leaves it as
    it is. *)
Definition rounded2 (x : number) : Prop := round2 x = x.

(** The sum of a list of numbers, in the order of the list. *)
Definition sum (l : list number) : number := fold_left PrimFloat.add l 0%float.

(** [price * qty] and [price * qty * taxRate] of a line with its item. *)
Definition line_amount (ci : CatalogItem.t) (l : OrderLine.t) : number :=
  (CatalogItem.price ci * OrderLine.qty l)%float.

Definition line_tax (ci : CatalogItem.t) (l : OrderLine.t) : number :=
  (CatalogItem.price ci * OrderLine.qty l * CatalogItem.taxRate ci)%float.

(** The per-line subtotals of the totals are all rounded to two decimals. *)
Definition lines_rounded (l : list OrderItem.t) : Prop :=
  Forall rounded2 (map OrderItem.subtotal l).

(** Each line of [lines] names an item of the catalog, [found] in order. *)
Definition resolved (catalog : gmap string CatalogItem.t)
    (lines : list OrderLine.t) (found : list CatalogItem.t) : Prop :=
  Forall2 (fun l ci => catalog !! OrderLine.itemId l = Some ci) lines found.

(** The line of an order as the calculator builds it. *)
Definition order_item (ci : CatalogItem.t) (l : OrderLine.t) : OrderItem.t :=
  OrderItem.mk (OrderLine.itemId l) (CatalogItem.name ci) (CatalogItem.price ci)
    (OrderLine.qty l) (line_amount ci l).

(** The order that [POST /orders] creates from resolved lines, and the
    webhook payload made from an order. *)
Definition order_of (env : Env) (found : list CatalogItem.t) (lines : list OrderLine.t)
  : Order.t :=
  Order.mk (generateId env) (zip_with order_item found lines)
    (round2 (sum (zip_with line_amount found lines)))
    (round2 (sum (zip_with line_tax found lines)))
    (round2 (sum (zip_with line_amount found lines)
             + sum (zip_with line_tax found lines))%float)
    completed (now env).

Definition payload_of (order : Order.t) : WebhookPayload.t :=
  WebhookPayload.mk (Order.id order) "pos-sim-venue-001"
    (toISOString (Order.createdAt order))
    (map (fun item =>
            WebhookItem.mk (OrderItem.itemId item) (OrderItem.name item)
              (OrderItem.quantity item) (OrderItem.price item))
         (Order.items order))
    (Order.subtotal order) (Order.tax order) (Order.total order).

(** The calls of [fetch] and [sleep] among the actions of a webhook task. *)
Inductive Call := Attempt | Wait (ms : Z).

Fixpoint calls (acts : list Action) : list Call :=
  match acts with
  | [] => []
  | Fetch _ _ _ :: r => Attempt :: calls r
  | Sleep ms :: r => Wait ms :: calls r
  | _ :: r => calls r
  end.

(** [k + 1] attempts with [k] waits between them, the first of [delay]
    milliseconds and each twice as long as the one before. *)
Fixpoint backoff_calls (k : nat) (delay : Z) : list Call :=
  match k with
  | O => [Attempt]
  | S k' => Attempt :: Wait delay :: backoff_calls k' (delay * 2)
  end.

(** A send that fails: a response outside 2xx, or a transport error. *)
Definition failed (r : FetchResult) : bool :=
  match r with
  | Responds status => negb (ok status)
  | Rejects _ => true
  end.

(** The guardrail band [minPrice <= p <= maxPrice]. *)
Definition within (item : CatalogItem.t) (p : number) : bool :=
  (CatalogItem.minPrice item <=? p)%float && (p <=? CatalogItem.maxPrice item)%float.

End Spec.

(** ** Concrete stores used by the examples *)

Module Sample.
Import JS Utils Server.

Definition noon : Date := mkDate 1704110400000 "2024-01-01T12:00:00.000Z".

Definition ipa : CatalogItem.t :=
  seed "a1b2c3d4e5f60718" "IPA Pint" "Beer" 7%float 5%float 12%float noon.

Definition margarita : CatalogItem.t :=
  seed "0f1e2d3c4b5a6978" "House Margarita" "Cocktails" 12%float 9%float 18%float noon.

(** An item priced at one dollar and an eighth, inside its guardrails. *)
Definition shot : CatalogItem.t :=
  seed "1122334455667788" "Bitters Shot" "Cocktails" 1.125%float 1%float 2%float noon.

Definition stores : State :=
  mkState
    (<[CatalogItem.id ipa := ipa]>
       (<[CatalogItem.id margarita := margarita]>
          (<[CatalogItem.id shot := shot]> ∅)))
    ∅ ∅ 1.

Definition env : Env := mkEnv noon "cafe0123babe4567".

Definition hooked : Config :=
  mkConfig "pos-sim-dev-key" "supersecret" "http://localhost:4000/webhooks/pos".

Definition two_ipa_one_margarita : list OrderLine.t :=
  [ OrderLine.mk (CatalogItem.id ipa) 2%float;
    OrderLine.mk (CatalogItem.id margarita) 1%float ].

Definition down : Network := fun _ => Responds 503.

End Sample.


(** ** The socket side of [server.ts]

    A socket is known by its identity; [wsClients], a [Set] of sockets, is
    the list of its members in insertion order.  A frame stands for the
    string that [JSON.stringify] makes of it. *)

Module Sockets.
Import JS Server.

Definition WebSocket := nat.

Inductive ReadyState := CONNECTING | OPEN | CLOSING | CLOSED.

Definition is_open (s : ReadyState) : bool :=
  match s with OPEN => true | _ => false end.

(** [Set.prototype.add] and [Set.prototype.delete]. *)
Definition Set_add (ws : WebSocket) (s : list WebSocket) : list WebSocket :=
  if bool_decide (ws ∈ s) then s else s ++ [ws].

Definition Set_delete (ws : WebSocket) (s : list WebSocket) : list WebSocket :=
  filter (fun c => c <> ws) s.

Inductive Frame :=
| Connected (menuVersion : Z) (ts : string)
| Published (message : WebSocketMessage.t).

(** The [connection] handler: the socket joins [wsClients] and is sent the
    current menu version. *)
Definition on_connection (now : Date) (st : State) (ws : WebSocket)
    (wsClients : list WebSocket) : list WebSocket * list (WebSocket * Frame) :=
  (Set_add ws wsClients, [(ws, Connected (menuVersion st) (toISOString now))]).

(** The [close] and the [error] handler of a socket. *)
Definition on_close (ws : WebSocket) (wsClients : list WebSocket) : list WebSocket :=
  Set_delete ws wsClients.

Definition on_error (ws : WebSocket) (wsClients : list WebSocket) : list WebSocket :=
  Set_delete ws wsClients.

(** [broadcast(message)], with the [readyState] of every socket at the time
    of the call: what is sent, in order. *)
Definition broadcast (readyState : WebSocket -> ReadyState) (wsClients : list WebSocket)
    (message : WebSocketMessage.t) : list (WebSocket * Frame) :=
  map (fun client => (client, Published message))
      (filter (fun client => is_open (readyState client) = true) wsClients).

(** The events of the socket server, and [wsClients] after a sequence of
    them, from the empty set of the start. *)
Inductive SocketEvent :=
| Connection (ws : WebSocket)
| Close (ws : WebSocket)
| Error (ws : WebSocket).

Definition on_event (wsClients : list WebSocket) (e : SocketEvent) : list WebSocket :=
  match e with
  | Connection ws => Set_add ws wsClients
  | Close ws => on_close ws wsClients
  | Error ws => on_error ws wsClients
  end.

Definition clients_after (events : list SocketEvent) : list WebSocket :=
  fold_left on_event events [].

(** What the broadcasts of a handler send to the sockets. *)
Definition deliver (readyState : WebSocket -> ReadyState) (wsClients : list WebSocket)
    (effects : list Effect) : list (WebSocket * Frame) :=
  flat_map (fun e =>
              match e with
              | Broadcast m => broadcast readyState wsClients m
              | SendWebhook _ _ _ => []
              end) effects.

End Sockets.

(** ** What is observed of a request and of a delivery *)

Module Observe.
Import JS Crypto Utils Server Spec.

(** The menu version that a broadcast message carries, if it carries one. *)
Definition version_of (m : WebSocketMessage.t) : option Z :=
  match WebSocketMessage.data m with
  | ItemPublished v _ | ItemDeleted v _ | MenuPublished v => Some v
  | PriceUpdated _ _ _ _ v => v
  | PromotionCreated _ | OrderCreated _ => None
  end.

Definition broadcasts (effects : list Effect) : list WebSocketMessage.t :=
  omap (fun e => match e with Broadcast m => Some m | _ => None end) effects.

Definition webhooks (effects : list Effect) : list (string * WebhookPayload.t * string) :=
  omap (fun e => match e with SendWebhook u p s => Some (u, p, s) | _ => None end) effects.

(** The versions announced by the broadcasts of a request, in order. *)
Definition versions (effects : list Effect) : list Z :=
  omap version_of (broadcasts effects).

(** The key a request comes with, when its route is behind
    [requireApiKey]. *)
Definition key_of (req : Request) : option (option string) :=
  match req with
  | POST_catalog_items key _ | PATCH_catalog_items key _ _
  | DELETE_catalog_items key _ | POST_pricing key _ _
  | POST_promotions key _ | POST_menu_publish key => Some key
  | POST_orders _ => None
  end.

(** The last socket event about [ws] was a connection. *)
Fixpoint registered (events : list Sockets.SocketEvent) (ws : Sockets.WebSocket)
    (before : bool) : bool :=
  match events with
  | [] => before
  | Sockets.Connection w :: r =>
      registered r ws (if bool_decide (w = ws) then true else before)
  | Sockets.Close w :: r | Sockets.Error w :: r =>
      registered r ws (if bool_decide (w = ws) then false else before)
  end.

(** A request sent by [fetch]: the headers and the body. *)
Definition sent (acts : list Action) : list (list (string * string) * string) :=
  omap (fun a => match a with Fetch _ h b => Some (h, b) | _ => None end) acts.

(** The error that a failed send leaves: the transport error itself, or an
    [Error] that names the status of the response. *)
Definition last_error (r : FetchResult) : Error :=
  match r with
  | Rejects e => e
  | Responds status => new_Error ("Webhook failed with status " +:+ digits_of status)
  end.

(** A lower-case hexadecimal digit. *)
Definition is_hex (c : Ascii.ascii) : bool :=
  let n := Ascii.N_of_ascii c in
  ((48 <=? n) && (n <=? 57) || (97 <=? n) && (n <=? 102))%N.

Fixpoint all_hex (s : string) : bool :=
  match s with
  | EmptyString => true
  | String c s' => is_hex c && all_hex s'
  end.

(** Every entry of the three stores is filed under its own identifier. *)
Definition keyed (st : State) : Prop :=
  map_Forall (fun k item => CatalogItem.id item = k) (catalog st) /\
  map_Forall (fun k order => Order.id order = k) (orders st) /\
  map_Forall (fun k promotion => Promotion.id promotion = k) (promotions st).

(** An order as [POST /orders] makes them: completed, with at least one
    line, every line worth its price times its quantity, and a subtotal
    that is the rounded sum of the lines. *)
Definition well_formed (order : Order.t) : Prop :=
  Order.status order = completed /\
  Order.items order <> [] /\
  Forall (fun item =>
            OrderItem.subtotal item = (OrderItem.price item * OrderItem.quantity item)%float)
         (Order.items order) /\
  Order.subtotal order = round2 (sum (map OrderItem.subtotal (Order.items order))).

End Observe.


(** * Properties *)

Import JS Crypto Utils Spec Server.

(** * The runtime, on known values *)

Example Math_round_ties :
  Math_round 2.5%float = 3%float /\ Math_round (-2.5)%float = (-2)%float /\
  Math_round 214.5%float = 215%float /\ Math_round 0.49999999999999994%float = 0%float.
Proof. repeat split; reflexivity. Qed.

Example round2_examples :
  round2 2.145%float = 2.15%float /\ round2 28.145%float = 28.15%float /\
  round2 1.005%float = 1%float /\ round2 (0.1 + 0.2)%float = 0.3%float.
Proof. repeat split; reflexivity. Qed.

Example Number_toString_examples :
  Number_toString 7%float = "7" /\
  Number_toString 8.5%float = "8.5" /\
  Number_toString (0.1 + 0.2)%float = "0.30000000000000004" /\
  Number_toString 1e21%float = "1e+21" /\
  Number_toString 1.5e-7%float = "1.5e-7" /\
  Number_toString (-0.000001)%float = "-0.000001" /\
  Number_toString 5e-324%float = "5e-324" /\
  Number_toString 123456789012345680000%float = "123456789012345680000".
Proof. repeat split; vm_compute; reflexivity. Qed.

(** SHA-256 of ["abc"] (FIPS 180-4) and the second test case of RFC 4231. *)
Example sha256_abc :
  hex (sha256 (Buffer_from "abc"))
  = "ba7816bf8f01cfea414140de5dae2223b00361a396177a9cb410ff61f20015ad".
Proof. vm_compute. reflexivity. Qed.

Example hmac_sha256_rfc4231 :
  generateHmacSignature "what do ya want for nothing?" "Jefe"
  = "5bdcc146bf60754e6a042426089575c75a003f089d2739839dec58b964ec3843".
Proof. vm_compute. reflexivity. Qed.

(** * Order totals *)

Section Totals.

Variable catalog : gmap string CatalogItem.t.

(** The loop over the lines adds each amount and each tax to its accumulator
    and appends one order line per requested line. *)
Lemma for_items_resolved lines found :
  resolved catalog lines found ->
  forall s t acc,
    for_items lines catalog s t acc =
      Return (fold_left PrimFloat.add (zip_with line_amount found lines) s,
              fold_left PrimFloat.add (zip_with line_tax found lines) t,
              acc ++ zip_with order_item found lines).
Proof.
  induction 1 as [|l ci lines found Hl _ IH]; intros s t acc; simpl.
  - by rewrite app_nil_r.
  - rewrite Hl, IH. by rewrite <- app_assoc.
Qed.

Lemma calculateOrderTotals_resolved lines found :
  resolved catalog lines found ->
  calculateOrderTotals lines catalog =
    Return (mkTotals (zip_with order_item found lines)
              (round2 (sum (zip_with line_amount found lines)))
              (round2 (sum (zip_with line_tax found lines)))
              (round2 (sum (zip_with line_amount found lines)
                       + sum (zip_with line_tax found lines))%float)).
Proof.
  intros H. unfold calculateOrderTotals.
  by rewrite (for_items_resolved _ _ H).
Qed.

End Totals.


(** * Order creation *)

Lemma copy_order_items (l : list OrderItem.t) :
  map (fun item =>
         OrderItem.mk (OrderItem.itemId item) (OrderItem.name item)
           (OrderItem.price item) (OrderItem.quantity item) (OrderItem.subtotal item)) l
  = l.
Proof. induction l as [|[] l IH]; simpl; [done|]. by rewrite IH. Qed.

Lemma subtotals_of_order_items found lines :
  map OrderItem.subtotal (zip_with order_item found lines)
  = zip_with line_amount found lines.
Proof.
  revert lines. induction found as [|ci found IH]; intros [|l lines]; simpl; try done.
  by rewrite IH.
Qed.

(** What [POST /orders] does when every line names an item of the catalog. *)
Lemma create_order_resolved cfg env st lines found :
  lines <> [] ->
  resolved (catalog st) lines found ->
  create_order cfg env st (CreateOrderRequest.mk (Some lines)) =
    (mkState (catalog st)
       (<[generateId env := order_of env found lines]> (orders st))
       (promotions st) (menuVersion st),
     mkResponse 201 (OrderBody (order_of env found lines)),
     Broadcast (WebSocketMessage.mk order_created (OrderCreated (order_of env found lines))
                  (toISOString (now env)))
       :: (if string_truthy (MARKETBAR_WEBHOOK_URL cfg)
           then [ SendWebhook (MARKETBAR_WEBHOOK_URL cfg)
                    (payload_of (order_of env found lines)) (WEBHOOK_SECRET cfg) ]
           else [])).
Proof.
  intros Hne H. unfold create_order. cbn [CreateOrderRequest.items].
  destruct lines as [|l lines]; [done|].
  rewrite (calculateOrderTotals_resolved _ _ _ H).
  cbn [items subtotal tax total Order.id Order.items Order.subtotal Order.tax Order.total].
  rewrite copy_order_items. reflexivity.
Qed.

(** * The aggregates of an order *)

(** C1.  For a non-empty list of lines that all name items of the catalog,
    [calculateOrderTotals] returns totals whose [subtotal] is the sum of
    [price * qty] rounded to two decimals, whose [tax] is the sum of
    [price * qty * taxRate] rounded to two decimals, and whose [total] is the
    unrounded sum of amounts plus the unrounded sum of taxes, rounded to two
    decimals: each aggregate is rounded on its own from the unrounded sums.
    [POST /orders] answers with an order that carries these three values. *)
Theorem calculateOrderTotals_aggregates
    (cfg : Config) (env : Env) (st : State)
    (lines : list OrderLine.t) (found : list CatalogItem.t) :
  lines <> [] ->
  resolved (catalog st) lines found ->
  exists r order,
    calculateOrderTotals lines (catalog st) = Return r /\
    subtotal r = round2 (sum (zip_with line_amount found lines)) /\
    tax r = round2 (sum (zip_with line_tax found lines)) /\
    total r = round2 (sum (zip_with line_amount found lines)
                      + sum (zip_with line_tax found lines))%float /\
    snd (fst (create_order cfg env st (CreateOrderRequest.mk (Some lines))))
      = mkResponse 201 (OrderBody order) /\
    Order.subtotal order = subtotal r /\
    Order.tax order = tax r /\
    Order.total order = total r.
Proof.
  intros Hne H. eexists. exists (order_of env found lines).
  split; [apply calculateOrderTotals_resolved, H|].
  rewrite (create_order_resolved cfg env st lines found Hne H).
  simpl. auto 10.
Qed.

(** C1 at the order of the specification's example, two IPA at 7 and one
    Margarita at 12 with a tax rate of 0.0825: 26, 2.15 and 28.15. *)
Lemma calculateOrderTotals_aggregates_witness :
  exists r,
    calculateOrderTotals Sample.two_ipa_one_margarita (catalog Sample.stores) = Return r /\
    subtotal r = 26%float /\ tax r = 2.15%float /\ total r = 28.15%float.
Proof.
  destruct (calculateOrderTotals_aggregates Sample.hooked Sample.env Sample.stores
              Sample.two_ipa_one_margarita [Sample.ipa; Sample.margarita])
    as (r & order & Hr & Hs & Ht & Hsum & _).
  - discriminate.
  - repeat constructor.
  - exists r. rewrite Hs, Ht, Hsum. repeat split; [exact Hr | reflexivity ..].
Defined.

(** The total is not the sum of the rounded subtotal and the rounded tax:
    four items at 15.50 with a tax rate of 0.0825 give 62, 5.12 and 67.11. *)
Example total_rounded_on_its_own :
  exists r,
    calculateOrderTotals [OrderLine.mk "x" 4%float]
      {[ "x" := seed "x" "Pitcher" "Beer" 15.5%float 10%float 20%float Sample.noon ]}
      = Return r /\
    subtotal r = 62%float /\ tax r = 5.12%float /\ total r = 67.11%float /\
    (subtotal r + tax r)%float = 67.12%float.
Proof. eexists. split; [reflexivity | simpl; repeat split; reflexivity]. Qed.

(** * Per-line subtotals *)

(** C2, as the code has it.  For lines that all name items of the catalog,
    the per-line subtotal that [calculateOrderTotals] returns is the product
    [price * qty] itself, not rounded, and [POST /orders] stores and
    broadcasts the order with these values as they are. *)
Theorem line_subtotals_unrounded
    (cfg : Config) (env : Env) (st : State)
    (lines : list OrderLine.t) (found : list CatalogItem.t) :
  lines <> [] ->
  resolved (catalog st) lines found ->
  exists r order,
    calculateOrderTotals lines (catalog st) = Return r /\
    map OrderItem.subtotal (items r) = zip_with line_amount found lines /\
    Order.items order = items r /\
    orders (after (create_order cfg env st (CreateOrderRequest.mk (Some lines))))
      !! generateId env = Some order /\
    In (Broadcast (WebSocketMessage.mk order_created (OrderCreated order)
                     (toISOString (now env))))
       (snd (create_order cfg env st (CreateOrderRequest.mk (Some lines)))).
Proof.
  intros Hne H.
  exists (mkTotals (zip_with order_item found lines)
            (Order.subtotal (order_of env found lines))
            (Order.tax (order_of env found lines))
            (Order.total (order_of env found lines))),
         (order_of env found lines).
  rewrite (create_order_resolved cfg env st lines found Hne H).
  split; [apply calculateOrderTotals_resolved, H|].
  split; [apply subtotals_of_order_items|].
  split; [reflexivity|].
  split; [apply lookup_insert_eq|].
  left. reflexivity.
Qed.

(** C2 as amended, at one [Bitters Shot] at 1.125. *)
Lemma line_subtotals_unrounded_witness :
  exists r order,
    calculateOrderTotals [OrderLine.mk (CatalogItem.id Sample.shot) 1%float]
      (catalog Sample.stores) = Return r /\
    map OrderItem.subtotal (items r) = [1.125%float] /\
    Order.items order = items r /\
    orders (after (create_order Sample.hooked Sample.env Sample.stores
                     (CreateOrderRequest.mk
                        (Some [OrderLine.mk (CatalogItem.id Sample.shot) 1%float]))))
      !! generateId Sample.env = Some order.
Proof.
  destruct (line_subtotals_unrounded Sample.hooked Sample.env Sample.stores
              [OrderLine.mk (CatalogItem.id Sample.shot) 1%float] [Sample.shot])
    as (r & order & Hr & Hs & Hi & Ho & _).
  - discriminate.
  - repeat constructor.
  - exists r, order. repeat split; assumption.
Defined.

(** C2 as stated fails: one [Bitters Shot] at 1.125 comes back with the
    per-line subtotal 1.125, which rounding to two decimals would turn into
    1.13; the per-line subtotals are not all rounded, neither in the totals
    returned nor in the order stored. *)
Lemma line_subtotal_not_rounded :
  exists r order,
    calculateOrderTotals [OrderLine.mk (CatalogItem.id Sample.shot) 1%float]
      (catalog Sample.stores) = Return r /\
    map OrderItem.subtotal (items r) = [1.125%float] /\
    round2 1.125%float = 1.13%float /\
    ~ lines_rounded (items r) /\
    orders (after (create_order Sample.hooked Sample.env Sample.stores
                     (CreateOrderRequest.mk
                        (Some [OrderLine.mk (CatalogItem.id Sample.shot) 1%float]))))
      !! generateId Sample.env = Some order /\
    ~ lines_rounded (Order.items order).
Proof.
  assert (~ rounded2 1.125%float) as Hno.
  { unfold rounded2. intros H.
    apply (f_equal (fun x => PrimFloat.eqb x 1.125%float)) in H.
    vm_compute in H. discriminate. }
  eexists. eexists. split; [vm_compute; reflexivity|].
  split; [reflexivity|]. split; [reflexivity|].
  split; [intros H; inversion H; subst; auto|].
  split; [vm_compute; reflexivity|].
  intros H; inversion H; subst; auto.
Qed.

(** * Signatures *)

Lemma Buffer_from_length (s : string) :
  length (Buffer_from s) = String.length s.
Proof. induction s as [|c s IH]; simpl; congruence. Qed.

(** A hexadecimal SHA-256 digest has 64 characters. *)
Lemma hex_length (h : hash) : String.length (hex h) = 64%nat.
Proof. reflexivity. Qed.

Lemma generateHmacSignature_length (payload secret : string) :
  String.length (generateHmacSignature payload secret) = 64%nat.
Proof. apply hex_length. Qed.

Lemma timingSafeEqual_refl (a : Buffer) : timingSafeEqual a a = Return true.
Proof.
  unfold timingSafeEqual. rewrite Nat.eqb_refl.
  by rewrite bool_decide_eq_true_2.
Qed.

(** With a signature of any other length than the digest's 64 bytes,
    [verifyHmacSignature] throws the [RangeError] of [timingSafeEqual]. *)
Lemma verifyHmacSignature_other_length (payload signature secret : string) :
  String.length signature <> 64%nat ->
  verifyHmacSignature payload signature secret =
    Throw (mkError "RangeError" "Input buffers must have the same byte length").
Proof.
  intros H. unfold verifyHmacSignature, timingSafeEqual.
  rewrite !Buffer_from_length, generateHmacSignature_length.
  destruct (Nat.eqb_spec (String.length signature) 64); [done | reflexivity].
Qed.

(** C3 at the signature of the README's test request, which is four bytes
    long: where the property asks for [false] without an exception,
    [verifyHmacSignature] throws. *)
Theorem verifyHmacSignature_short_signature_throws :
  verifyHmacSignature "{}" "test" "supersecret" =
    Throw (mkError "RangeError" "Input buffers must have the same byte length").
Proof. apply verifyHmacSignature_other_length. simpl. lia. Qed.

(** C7.  Verifying the signature that [generateHmacSignature] gives for a
    payload, with the same secret, returns [true]. *)
Theorem verify_generated_signature (payload secret : string) :
  verifyHmacSignature payload (generateHmacSignature payload secret) secret
  = Return true.
Proof. unfold verifyHmacSignature. apply timingSafeEqual_refl. Qed.

(** A signature of the right length made with another secret is refused
    with [false]. *)
Example verify_other_secret :
  verifyHmacSignature "{}" (generateHmacSignature "{}" "supersecreT") "supersecret"
  = Return false.
Proof. vm_compute. reflexivity. Qed.

(** * Webhook delivery *)

Section Delivery.

Variables (net : Network) (url signature payloadString : string) (maxRetries : Z).

Lemma calls_app (a b : list Action) : calls (a ++ b) = calls a ++ calls b.
Proof.
  induction a as [|x a IH]; simpl; [done|].
  destruct x; simpl; by rewrite IH.
Qed.

(** A failed attempt with retries left: one [fetch], one [sleep] of the
    current delay, and the loop goes on with the delay doubled. *)
Lemma attempt_retry (st : LoopState) (r : FetchResult) :
  failed r = true ->
  retryCount st < maxRetries ->
  exists acts,
    attempt url signature payloadString maxRetries st r
      = (acts, Return (Some (backoff st))) /\
    calls acts = [Attempt; Wait (delay st)].
Proof.
  intros Hf Hlt. unfold attempt, try_block, catch_block.
  apply Z.ltb_lt in Hlt.
  destruct r as [status|e]; simpl in Hf.
  - apply negb_true_iff in Hf. rewrite Hf, Hlt. eexists. split; reflexivity.
  - rewrite Hlt. eexists. split; reflexivity.
Qed.

(** A failed attempt with no retry left: one [fetch], and the error is
    thrown out of the loop. *)
Lemma attempt_give_up (st : LoopState) (r : FetchResult) :
  failed r = true ->
  maxRetries <= retryCount st ->
  exists acts e,
    attempt url signature payloadString maxRetries st r = (acts, Throw e) /\
    calls acts = [Attempt].
Proof.
  intros Hf Hge. unfold attempt, try_block, catch_block.
  apply Z.ltb_ge in Hge.
  destruct r as [status|e]; simpl in Hf.
  - apply negb_true_iff in Hf. rewrite Hf, Hge. do 2 eexists. split; reflexivity.
  - rewrite Hge. do 2 eexists. split; reflexivity.
Qed.

(** A successful attempt: one [fetch], and the function returns. *)
Lemma attempt_success (st : LoopState) (status : Z) :
  ok status = true ->
  exists acts,
    attempt url signature payloadString maxRetries st (Responds status)
      = (acts, Return None) /\
    calls acts = [Attempt].
Proof.
  intros Hok. unfold attempt, try_block. rewrite Hok.
  eexists. split; reflexivity.
Qed.

(** [k] failures, then a success, with enough retries for the [k] of them. *)
Lemma while_loop_success (k : nat) :
  forall (fuel i : nat) (st : LoopState) (status : Z),
    (k < fuel)%nat ->
    retryCount st + Z.of_nat k <= maxRetries ->
    (forall j, (j < k)%nat -> failed (net (i + j)%nat) = true) ->
    net (i + k)%nat = Responds status ->
    ok status = true ->
    exists acts,
      while_loop fuel net i url signature payloadString maxRetries st
        = Some (acts, Return tt) /\
      calls acts = backoff_calls k (delay st).
Proof.
  induction k as [|k IH]; intros fuel i st status Hfuel Hr Hfail Hnet Hok;
    (destruct fuel as [|fuel]; [lia|]); simpl.
  - replace (retryCount st <=? maxRetries) with true by (symmetry; apply Z.leb_le; lia).
    rewrite Nat.add_0_r in Hnet. rewrite Hnet.
    destruct (attempt_success st status Hok) as (acts & -> & Hc).
    exists acts. split; [reflexivity | exact Hc].
  - replace (retryCount st <=? maxRetries) with true by (symmetry; apply Z.leb_le; lia).
    destruct (attempt_retry st (net i)) as (acts & -> & Hc).
    { rewrite <- (Nat.add_0_r i). apply Hfail. lia. }
    { lia. }
    destruct (IH fuel (S i) (backoff st) status) as (acts' & -> & Hc').
    { lia. }
    { simpl. lia. }
    { intros j Hj. replace (S i + j)%nat with (i + S j)%nat by lia. apply Hfail. lia. }
    { replace (S i + k)%nat with (i + S k)%nat by lia. exact Hnet. }
    { exact Hok. }
    exists (acts ++ acts'). split; [reflexivity|].
    rewrite calls_app, Hc, Hc'. reflexivity.
Qed.

(** Failures only, [k] retries left. *)
Lemma while_loop_exhausted (k : nat) :
  forall (fuel i : nat) (st : LoopState),
    (k < fuel)%nat ->
    retryCount st + Z.of_nat k = maxRetries ->
    (forall j, (j <= k)%nat -> failed (net (i + j)%nat) = true) ->
    exists acts e,
      while_loop fuel net i url signature payloadString maxRetries st
        = Some (acts, Throw e) /\
      calls acts = backoff_calls k (delay st).
Proof.
  induction k as [|k IH]; intros fuel i st Hfuel Hr Hfail;
    (destruct fuel as [|fuel]; [lia|]); simpl.
  - replace (retryCount st <=? maxRetries) with true by (symmetry; apply Z.leb_le; lia).
    destruct (attempt_give_up st (net i)) as (acts & e & -> & Hc).
    { rewrite <- (Nat.add_0_r i). apply Hfail. lia. }
    { lia. }
    exists acts, e. split; [reflexivity | exact Hc].
  - replace (retryCount st <=? maxRetries) with true by (symmetry; apply Z.leb_le; lia).
    destruct (attempt_retry st (net i)) as (acts & -> & Hc).
    { rewrite <- (Nat.add_0_r i). apply Hfail. lia. }
    { lia. }
    destruct (IH fuel (S i) (backoff st)) as (acts' & e & -> & Hc').
    { lia. }
    { simpl. lia. }
    { intros j Hj. replace (S i + j)%nat with (i + S j)%nat by lia. apply Hfail. lia. }
    exists (acts ++ acts'), e. split; [reflexivity|].
    rewrite calls_app, Hc, Hc'. reflexivity.
Qed.

(** The loop is left before the fuel runs out, whatever the network does. *)
Lemma while_loop_total :
  forall (fuel i : nat) (st : LoopState),
    (0 < fuel)%nat ->
    maxRetries - retryCount st + 1 < Z.of_nat fuel ->
    exists r,
      while_loop fuel net i url signature payloadString maxRetries st = Some r.
Proof.
  induction fuel as [|fuel IH]; intros i st Hpos Hfuel; [lia|]. simpl.
  destruct (Z.leb_spec (retryCount st) maxRetries) as [Hle|Hgt]; [|eauto].
  unfold attempt, try_block, catch_block.
  destruct (Z.ltb_spec (retryCount st) maxRetries) as [Hlt|Hge].
  - destruct (IH (S i) (backoff st)) as ([acts' c] & Hrec); [lia | simpl; lia |].
    destruct (net i) as [status|e]; try destruct (ok status); simpl;
      rewrite ?Hrec; eauto.
  - destruct (net i) as [status|e]; try destruct (ok status); simpl; eauto.
Qed.

End Delivery.

Lemma sendWebhook_total net url payload secret maxRetries :
  exists r, sendWebhook net url payload secret maxRetries = Some r.
Proof.
  unfold sendWebhook. apply while_loop_total; simpl; lia.
Qed.

(** Against an endpoint that fails every time, the default budget gives
    four attempts, with waits of 1000, 2000 and 4000 milliseconds between
    them, and the promise is rejected. *)
Lemma sendWebhook_all_failed net url payload secret :
  (forall i, failed (net i) = true) ->
  exists acts e,
    sendWebhook net url payload secret default_maxRetries = Some (acts, Throw e) /\
    calls acts = [Attempt; Wait 1000; Attempt; Wait 2000; Attempt; Wait 4000; Attempt].
Proof.
  intros Hfail. unfold sendWebhook.
  apply (while_loop_exhausted net url _ _ default_maxRetries 3 _ 0%nat (mkLoop 0 1000));
    [vm_compute; lia | reflexivity | auto].
Qed.

(** When the first [k] sends fail and the next one is answered with a 2xx
    status, there are [k + 1] attempts and the promise is fulfilled. *)
Lemma sendWebhook_first_success net url payload secret (k : nat) (status : Z) :
  (k <= 3)%nat ->
  (forall j, (j < k)%nat -> failed (net j) = true) ->
  net k = Responds status ->
  ok status = true ->
  exists acts,
    sendWebhook net url payload secret default_maxRetries = Some (acts, Return tt) /\
    calls acts = backoff_calls k 1000.
Proof.
  intros Hk Hfail Hnet Hok. unfold sendWebhook.
  apply (while_loop_success net url _ _ default_maxRetries k _ 0%nat (mkLoop 0 1000) status);
    [change (k < 5)%nat; lia | unfold default_maxRetries; simpl; lia
    | exact Hfail | exact Hnet | exact Hok].
Qed.

(** C4.  An order with a webhook configured is answered with 201 and starts
    the delivery as a detached task.  When every send fails, the task makes
    exactly four attempts with waits of 1000, 2000 and 4000 milliseconds
    between them, [sendWebhook] rejects, and the task ends with the rejection
    caught and logged, so that nothing reaches the handler.  When a send is
    answered with a 2xx status after [k <= 3] failures, there are [k + 1]
    attempts, none after the successful one. *)
Theorem webhook_delivery_schedule
    (cfg : Config) (env : Env) (st : State)
    (lines : list OrderLine.t) (found : list CatalogItem.t) (net : Network) :
  lines <> [] ->
  resolved (catalog st) lines found ->
  string_truthy (MARKETBAR_WEBHOOK_URL cfg) = true ->
  let url := MARKETBAR_WEBHOOK_URL cfg in
  let secret := WEBHOOK_SECRET cfg in
  let payload := payload_of (order_of env found lines) in
  let result := create_order cfg env st (CreateOrderRequest.mk (Some lines)) in
  snd (fst result) = mkResponse 201 (OrderBody (order_of env found lines)) /\
  In (SendWebhook url payload secret) (snd result) /\
  ((forall i, failed (net i) = true) ->
   exists acts e,
     sendWebhook net url payload secret default_maxRetries = Some (acts, Throw e) /\
     calls acts = [Attempt; Wait 1000; Attempt; Wait 2000; Attempt; Wait 4000; Attempt] /\
     webhook_task net url payload secret = Some (acts ++ [LogFailedToSend e], Return tt)) /\
  (forall (k : nat) (status : Z),
     (k <= 3)%nat ->
     (forall j, (j < k)%nat -> failed (net j) = true) ->
     net k = Responds status ->
     ok status = true ->
     exists acts,
       sendWebhook net url payload secret default_maxRetries = Some (acts, Return tt) /\
       calls acts = backoff_calls k 1000 /\
       webhook_task net url payload secret = Some (acts, Return tt)).
Proof.
  intros Hne Hres Hurl url secret payload result. subst result.
  rewrite (create_order_resolved cfg env st lines found Hne Hres), Hurl.
  split; [reflexivity|]. split; [right; left; reflexivity|]. split.
  - intros Hfail.
    destruct (sendWebhook_all_failed net url payload secret Hfail) as (acts & e & Hs & Hc).
    exists acts, e. unfold webhook_task. rewrite Hs. auto.
  - intros k status Hk Hfail Hnet Hok.
    destruct (sendWebhook_first_success net url payload secret k status Hk Hfail Hnet Hok)
      as (acts & Hs & Hc).
    exists acts. unfold webhook_task. rewrite Hs. auto.
Qed.

(** C4 at an order of two IPA and one Margarita, with an endpoint that
    answers 503 every time. *)
Lemma webhook_delivery_schedule_witness :
  exists acts e,
    sendWebhook Sample.down (MARKETBAR_WEBHOOK_URL Sample.hooked)
      (payload_of (order_of Sample.env [Sample.ipa; Sample.margarita]
                     Sample.two_ipa_one_margarita))
      (WEBHOOK_SECRET Sample.hooked) default_maxRetries = Some (acts, Throw e) /\
    calls acts = [Attempt; Wait 1000; Attempt; Wait 2000; Attempt; Wait 4000; Attempt] /\
    webhook_task Sample.down (MARKETBAR_WEBHOOK_URL Sample.hooked)
      (payload_of (order_of Sample.env [Sample.ipa; Sample.margarita]
                     Sample.two_ipa_one_margarita))
      (WEBHOOK_SECRET Sample.hooked) = Some (acts ++ [LogFailedToSend e], Return tt).
Proof.
  destruct (webhook_delivery_schedule Sample.hooked Sample.env Sample.stores
              Sample.two_ipa_one_margarita [Sample.ipa; Sample.margarita] Sample.down)
    as (_ & _ & Hfail & _).
  - discriminate.
  - repeat constructor.
  - reflexivity.
  - apply Hfail. intros i. reflexivity.
Defined.

(** * A line that names no item *)

(** The loop stops at the first line whose item is absent, whatever it has
    accumulated. *)
Lemma for_items_absent (catalog : gmap string CatalogItem.t)
    (pre : list OrderLine.t) (l : OrderLine.t) (post : list OrderLine.t) :
  Forall (fun x => is_Some (catalog !! OrderLine.itemId x)) pre ->
  catalog !! OrderLine.itemId l = None ->
  forall s t acc,
    for_items (pre ++ l :: post) catalog s t acc
    = Throw (new_Error ("Item " +:+ OrderLine.itemId l +:+ " not found")).
Proof.
  intros Hpre Hl. induction Hpre as [|x pre [ci Hx] _ IH]; intros s t acc; simpl.
  - by rewrite Hl.
  - rewrite Hx. apply IH.
Qed.

(** Among lines of which one names no item, there is a first such line. *)
Lemma first_absent (catalog : gmap string CatalogItem.t) (lines : list OrderLine.t) :
  Exists (fun x => catalog !! OrderLine.itemId x = None) lines ->
  exists pre l post,
    lines = pre ++ l :: post /\
    Forall (fun x => is_Some (catalog !! OrderLine.itemId x)) pre /\
    catalog !! OrderLine.itemId l = None.
Proof.
  induction lines as [|x lines IH]; intros H; [by inversion H|].
  destruct (catalog !! OrderLine.itemId x) as [ci|] eqn:Hx.
  - destruct IH as (pre & l & post & -> & Hpre & Hl).
    { inversion H as [? ? Hx'|]; subst; [congruence | assumption]. }
    exists (x :: pre), l, post. split; [reflexivity|].
    split; [constructor; eauto | exact Hl].
  - exists [], x, lines. split; [reflexivity|]. split; [constructor | exact Hx].
Qed.

(** C5.  When some requested line names an item that the catalog does not
    have, [calculateOrderTotals] throws an error whose message names the
    identifier of the first such line and returns no totals, and
    [POST /orders] answers 400 with that message, leaves the stores as they
    were and neither broadcasts nor starts a webhook. *)
Theorem missing_item_aborts_order
    (cfg : Config) (env : Env) (st : State) (lines : list OrderLine.t) :
  Exists (fun x => catalog st !! OrderLine.itemId x = None) lines ->
  exists pre l post,
    lines = pre ++ l :: post /\
    Forall (fun x => is_Some (catalog st !! OrderLine.itemId x)) pre /\
    catalog st !! OrderLine.itemId l = None /\
    calculateOrderTotals lines (catalog st)
      = Throw (new_Error ("Item " +:+ OrderLine.itemId l +:+ " not found")) /\
    create_order cfg env st (CreateOrderRequest.mk (Some lines))
      = (st,
         mkResponse 400
           (ErrorBody (Some ("Item " +:+ OrderLine.itemId l +:+ " not found"))),
         []).
Proof.
  intros H. destruct (first_absent _ _ H) as (pre & l & post & -> & Hpre & Hl).
  exists pre, l, post.
  assert (calculateOrderTotals (pre ++ l :: post) (catalog st)
          = Throw (new_Error ("Item " +:+ OrderLine.itemId l +:+ " not found"))) as Hc.
  { unfold calculateOrderTotals. by rewrite (for_items_absent _ _ _ _ Hpre Hl). }
  repeat split; try assumption.
  unfold create_order. cbn [CreateOrderRequest.items]. rewrite Hc.
  by destruct pre.
Qed.

(** C5 at an order whose second and third lines name no item. *)
Lemma missing_item_aborts_order_witness :
  exists pre l post,
    [ OrderLine.mk (CatalogItem.id Sample.ipa) 2%float;
      OrderLine.mk "feedfacefeedface" 1%float;
      OrderLine.mk "deadbeefdeadbeef" 3%float ] = pre ++ l :: post /\
    Forall (fun x => is_Some (catalog Sample.stores !! OrderLine.itemId x)) pre /\
    catalog Sample.stores !! OrderLine.itemId l = None /\
    calculateOrderTotals
      [ OrderLine.mk (CatalogItem.id Sample.ipa) 2%float;
        OrderLine.mk "feedfacefeedface" 1%float;
        OrderLine.mk "deadbeefdeadbeef" 3%float ] (catalog Sample.stores)
      = Throw (new_Error ("Item " +:+ OrderLine.itemId l +:+ " not found")) /\
    create_order Sample.hooked Sample.env Sample.stores
      (CreateOrderRequest.mk
         (Some [ OrderLine.mk (CatalogItem.id Sample.ipa) 2%float;
                 OrderLine.mk "feedfacefeedface" 1%float;
                 OrderLine.mk "deadbeefdeadbeef" 3%float ]))
      = (Sample.stores,
         mkResponse 400
           (ErrorBody (Some ("Item " +:+ OrderLine.itemId l +:+ " not found"))),
         []).
Proof.
  apply (missing_item_aborts_order Sample.hooked Sample.env Sample.stores).
  apply Exists_cons_tl, Exists_cons_hd. reflexivity.
Defined.

(** Two absent identifiers: the first is the one named. *)
Example missing_item_names_the_first :
  create_order Sample.hooked Sample.env Sample.stores
    (CreateOrderRequest.mk
       (Some [ OrderLine.mk (CatalogItem.id Sample.ipa) 2%float;
               OrderLine.mk "feedfacefeedface" 1%float;
               OrderLine.mk "deadbeefdeadbeef" 3%float ]))
  = (Sample.stores,
     mkResponse 400 (ErrorBody (Some "Item feedfacefeedface not found")),
     []).
Proof. vm_compute. reflexivity. Qed.

(** * Guardrails *)

(** Comparing two doubles the other way round gives the opposite order. *)
Lemma SFcompare_antisym (a b : spec_float) :
  SFcompare b a = option_map CompOpp (SFcompare a b).
Proof.
  destruct a as [sa|sa| |sa ma ea], b as [sb|sb| |sb mb eb]; simpl; try reflexivity;
    try (destruct sa; reflexivity); try (destruct sb; reflexivity);
    try (destruct sa, sb; reflexivity).
  rewrite (Z.compare_antisym ea eb).
  change (Pos.compare_cont Eq mb ma) with (Pos.compare mb ma).
  change (Pos.compare_cont Eq ma mb) with (Pos.compare ma mb).
  rewrite (Pos.compare_antisym ma mb).
  destruct sa, sb, (ea ?= eb); simpl; try reflexivity;
    destruct (ma ?= mb)%positive; reflexivity.
Qed.

Lemma SFcompare_defined (a b : spec_float) :
  a <> S754_nan -> b <> S754_nan -> exists c, SFcompare a b = Some c.
Proof.
  intros Ha Hb.
  destruct a as [sa|sa| |sa ma ea], b as [sb|sb| |sb mb eb]; simpl; eauto; done.
Qed.

Lemma isNaN_false (x : number) : isNaN x = false -> Prim2SF x <> S754_nan.
Proof. unfold isNaN. by destruct (Prim2SF x). Qed.

(** Between two numbers, neither of them NaN, [x < y] fails exactly when
    [y <= x] holds. *)
Lemma ltb_false_leb (x y : number) :
  isNaN x = false -> isNaN y = false ->
  (x <? y)%float = negb (y <=? x)%float.
Proof.
  intros Hx%isNaN_false Hy%isNaN_false.
  rewrite FloatAxioms.ltb_spec, FloatAxioms.leb_spec. unfold SFltb, SFleb.
  rewrite (SFcompare_antisym (Prim2SF x) (Prim2SF y)).
  destruct (SFcompare_defined _ _ Hx Hy) as [c ->].
  by destruct c.
Qed.

(** What [validatePrice] tests when the guardrails are not overridden. *)
Lemma validatePrice_valid (item : CatalogItem.t) (p : number) :
  valid (validatePrice item p false)
  = negb (p <? CatalogItem.minPrice item)%float
    && negb (CatalogItem.maxPrice item <? p)%float.
Proof.
  unfold validatePrice.
  destruct (p <? CatalogItem.minPrice item)%float; [reflexivity|].
  by destruct (CatalogItem.maxPrice item <? p)%float.
Qed.

(** No number is below NaN, and NaN is below no number. *)
Lemma ltb_nan (x y : number) :
  isNaN x = true -> (x <? y)%float = false /\ (y <? x)%float = false.
Proof.
  intros Hx. rewrite !FloatAxioms.ltb_spec. unfold SFltb, isNaN in *.
  destruct (Prim2SF x); try discriminate. by destruct (Prim2SF y).
Qed.

(** C6, as the code has it.  [validatePrice] without override accepts a
    price exactly when the price is neither below [minPrice] nor above
    [maxPrice].  For a price and bounds none of which is NaN that is exactly
    when [minPrice <= p <= maxPrice], both bounds included; a price that is
    NaN is accepted whatever the bounds, and a bound that is NaN refuses
    nothing.  With override every price is accepted, NaN included.  A
    refusal comes with a message that names the bound that the price is
    beyond, with the value of the bound. *)
Theorem validatePrice_guardrails (item : CatalogItem.t) (p : number) :
  (valid (validatePrice item p false) = true <->
   (p <? CatalogItem.minPrice item)%float = false /\
   (CatalogItem.maxPrice item <? p)%float = false) /\
  (isNaN p = false ->
   isNaN (CatalogItem.minPrice item) = false ->
   isNaN (CatalogItem.maxPrice item) = false ->
   (valid (validatePrice item p false) = true <-> within item p = true)) /\
  (isNaN p = true -> valid (validatePrice item p false) = true) /\
  (isNaN (CatalogItem.minPrice item) = true ->
   (valid (validatePrice item p false) = true <->
    (CatalogItem.maxPrice item <? p)%float = false)) /\
  (isNaN (CatalogItem.maxPrice item) = true ->
   (valid (validatePrice item p false) = true <->
    (p <? CatalogItem.minPrice item)%float = false)) /\
  validatePrice item p true = mkValidation true None /\
  (valid (validatePrice item p false) = false ->
   (p <? CatalogItem.minPrice item)%float = true /\
   message (validatePrice item p false)
     = Some ("Price $" +:+ Number_toString p +:+ " is below minimum $"
               +:+ Number_toString (CatalogItem.minPrice item))
   \/
   (CatalogItem.maxPrice item <? p)%float = true /\
   message (validatePrice item p false)
     = Some ("Price $" +:+ Number_toString p +:+ " is above maximum $"
               +:+ Number_toString (CatalogItem.maxPrice item))).
Proof.
  assert (valid (validatePrice item p false) = true <->
          (p <? CatalogItem.minPrice item)%float = false /\
          (CatalogItem.maxPrice item <? p)%float = false) as Hgen.
  { rewrite validatePrice_valid, andb_true_iff, !negb_true_iff. reflexivity. }
  split; [exact Hgen|]. split; [|split; [|split; [|split; [|split; [reflexivity|]]]]].
  - intros Hp Hmin Hmax. rewrite validatePrice_valid. unfold within.
    rewrite (ltb_false_leb p _ Hp Hmin), (ltb_false_leb _ p Hmax Hp).
    by rewrite !negb_involutive.
  - intros Hp. apply Hgen. destruct (ltb_nan p (CatalogItem.minPrice item) Hp) as [H1 _].
    destruct (ltb_nan p (CatalogItem.maxPrice item) Hp) as [_ H2]. auto.
  - intros Hmin. rewrite Hgen.
    destruct (ltb_nan (CatalogItem.minPrice item) p Hmin) as [_ H]. rewrite H. tauto.
  - intros Hmax. rewrite Hgen.
    destruct (ltb_nan (CatalogItem.maxPrice item) p Hmax) as [H _]. rewrite H. tauto.
  - unfold validatePrice.
    destruct (p <? CatalogItem.minPrice item)%float; [by left|].
    destruct (CatalogItem.maxPrice item <? p)%float; [by right | discriminate].
Qed.

(** C6 as amended, at the lower bound itself: 5 for an item with the band
    from 5 to 12 is within the band and accepted. *)
Lemma validatePrice_guardrails_witness :
  (valid (validatePrice Sample.ipa 5%float false) = true
   <-> within Sample.ipa 5%float = true) /\
  valid (validatePrice Sample.ipa 5%float false) = true /\
  within Sample.ipa 5%float = true.
Proof.
  destruct (validatePrice_guardrails Sample.ipa 5%float) as (_ & Hband & _).
  split; [apply Hband; reflexivity|]. split; reflexivity.
Defined.

(** C6 as stated fails at NaN: the price NaN is neither below the minimum
    nor above the maximum, so it is accepted, and it is not within the
    band. *)
Lemma validatePrice_accepts_nan :
  valid (validatePrice Sample.ipa nan false) = true /\
  within Sample.ipa nan = false /\
  ~ (valid (validatePrice Sample.ipa nan false) = true <-> within Sample.ipa nan = true).
Proof.
  split; [reflexivity|]. split; [reflexivity|].
  intros [H _]. specialize (H eq_refl). vm_compute in H. discriminate.
Qed.

(** With a lower bound that is NaN, only the upper bound refuses: for an
    item with the band from NaN to 12, the price -100 is accepted and the
    price 13 is not; overriding accepts NaN as well. *)
Example validatePrice_nan_bound :
  validatePrice (seed "8899aabbccddeeff" "Sour" "Cocktails" 7%float nan 12%float Sample.noon)
    (-100)%float false = mkValidation true None /\
  validatePrice (seed "8899aabbccddeeff" "Sour" "Cocktails" 7%float nan 12%float Sample.noon)
    13%float false = mkValidation false (Some "Price $13 is above maximum $12") /\
  validatePrice Sample.ipa nan true = mkValidation true None.
Proof. repeat split; vm_compute; reflexivity. Qed.

(** The examples of the specification: 7 within [5, 12]. *)
Example validatePrice_examples :
  validatePrice Sample.ipa 8.5%float false = mkValidation true None /\
  validatePrice Sample.ipa 3%float false
    = mkValidation false (Some "Price $3 is below minimum $5") /\
  validatePrice Sample.ipa 3%float true = mkValidation true None /\
  validatePrice Sample.ipa 12%float false = mkValidation true None /\
  validatePrice Sample.ipa 12.5%float false
    = mkValidation false (Some "Price $12.5 is above maximum $12").
Proof. repeat split; vm_compute; reflexivity. Qed.

(** * The menu version *)

Create HintDb version discriminated.

Lemma version_same (st st' : State) :
  menuVersion st' = menuVersion st ->
  menuVersion st' = menuVersion st \/ menuVersion st' = menuVersion st + 1.
Proof. auto. Qed.

Lemma version_next (st st' : State) :
  menuVersion st' = menuVersion st + 1 ->
  menuVersion st' = menuVersion st \/ menuVersion st' = menuVersion st + 1.
Proof. auto. Qed.

#[local] Hint Resolve version_same version_next : version.

Ltac routes :=
  repeat match goal with
         | |- context [match ?x with _ => _ end] => destruct x
         | |- context [if ?b then _ else _] => destruct b
         end;
  simpl; auto with version.

Lemma create_item_version env st body :
  menuVersion (after (create_item env st body)) = menuVersion st \/
  menuVersion (after (create_item env st body)) = menuVersion st + 1.
Proof. unfold after, create_item, fail, reply. routes. Qed.

Lemma update_item_version env st id body :
  menuVersion (after (update_item env st id body)) = menuVersion st \/
  menuVersion (after (update_item env st id body)) = menuVersion st + 1.
Proof. unfold after, update_item, fail, reply. routes. Qed.

Lemma delete_item_version env st id :
  menuVersion (after (delete_item env st id)) = menuVersion st \/
  menuVersion (after (delete_item env st id)) = menuVersion st + 1.
Proof. unfold after, delete_item, fail, reply. routes. Qed.

Lemma update_price_version env st itemId body :
  menuVersion (after (update_price env st itemId body)) = menuVersion st \/
  menuVersion (after (update_price env st itemId body)) = menuVersion st + 1.
Proof. unfold after, update_price, fail, reply. routes. Qed.

Lemma create_promotion_version env st body :
  menuVersion (after (create_promotion env st body)) = menuVersion st.
Proof. unfold after, create_promotion, fail, reply. routes. Qed.

Lemma publish_menu_version env st :
  menuVersion (after (publish_menu env st)) = menuVersion st + 1.
Proof. reflexivity. Qed.

Lemma create_order_version cfg env st body :
  menuVersion (after (create_order cfg env st body)) = menuVersion st.
Proof. unfold after, create_order, fail, reply. routes. Qed.

Lemma handle_version cfg env st req :
  menuVersion (after (handle cfg env st req)) = menuVersion st \/
  menuVersion (after (handle cfg env st req)) = menuVersion st + 1.
Proof.
  destruct req; unfold handle, guarded, unauthorized, fail, reply;
    try (destruct (requireApiKey cfg key); [|by left]).
  - apply create_item_version.
  - apply update_item_version.
  - apply delete_item_version.
  - apply update_price_version.
  - left. apply create_promotion_version.
  - right. apply publish_menu_version.
  - left. apply create_order_version.
Qed.

(** C8.  Every request (creating, updating or deleting an item, updating a
    price, publishing the menu, creating a promotion, creating an order)
    leaves [menuVersion] as it was or adds exactly one to it; so over any
    sequence of requests the version never goes down, and from the start of
    the server it is at least 1. *)
Theorem menuVersion_never_decreases (cfg : Config) :
  (forall env st req,
     menuVersion (after (handle cfg env st req)) = menuVersion st \/
     menuVersion (after (handle cfg env st req)) = menuVersion st + 1) /\
  (forall reqs st, menuVersion st <= menuVersion (run cfg st reqs)) /\
  (forall gen now reqs, 1 <= menuVersion (run cfg (initial gen now) reqs)).
Proof.
  assert (forall reqs st, menuVersion st <= menuVersion (run cfg st reqs)) as Hrun.
  { induction reqs as [|[env req] reqs IH]; intros st; simpl; [lia|].
    specialize (IH (after (handle cfg env st req))).
    destruct (handle_version cfg env st req) as [H|H]; lia. }
  split; [apply handle_version|]. split; [exact Hrun|].
  intros gen now reqs. apply (Hrun reqs (initial gen now)).
Qed.

(** * Price updates *)

(** C9.  A price update that succeeds (status 200) replaces the target item
    by the same item with the new price and the new [updatedAt]; every other
    item, the orders and the promotions stay as they were.  Without
    [publish] (absent or false) the menu version stays as well; with
    [publish] true it goes up by exactly one. *)
Theorem update_price_frame
    (env : Env) (st : State) (itemId : string) (body : PriceUpdateRequest.t) :
  status (snd (fst (update_price env st itemId body))) = 200 ->
  exists item price,
    PriceUpdateRequest.price body = Some price /\
    catalog st !! itemId = Some item /\
    let st' := after (update_price env st itemId body) in
    catalog st' = <[itemId := reprice item price (now env)]> (catalog st) /\
    (forall other, other <> itemId -> catalog st' !! other = catalog st !! other) /\
    (exists item',
       catalog st' !! itemId = Some item' /\
       CatalogItem.price item' = price /\
       CatalogItem.updatedAt item' = now env /\
       CatalogItem.id item' = CatalogItem.id item /\
       CatalogItem.name item' = CatalogItem.name item /\
       CatalogItem.category item' = CatalogItem.category item /\
       CatalogItem.minPrice item' = CatalogItem.minPrice item /\
       CatalogItem.maxPrice item' = CatalogItem.maxPrice item /\
       CatalogItem.taxRate item' = CatalogItem.taxRate item /\
       CatalogItem.isActive item' = CatalogItem.isActive item /\
       CatalogItem.createdAt item' = CatalogItem.createdAt item) /\
    orders st' = orders st /\
    promotions st' = promotions st /\
    menuVersion st' =
      match PriceUpdateRequest.publish body with
      | Some true => menuVersion st + 1
      | Some false | None => menuVersion st
      end.
Proof.
  unfold update_price, after, fail, reply.
  destruct (PriceUpdateRequest.price body) as [price|]; [|discriminate].
  destruct (catalog st !! itemId) as [item|] eqn:Hitem; [|discriminate].
  destruct (valid _); [|discriminate]. cbn [negb fst snd catalog orders promotions menuVersion].
  intros _. exists item, price. split; [reflexivity|]. split; [reflexivity|].
  cbn zeta. split; [reflexivity|].
  split; [intros other Hne; by rewrite lookup_insert_ne|].
  split.
  { exists (reprice item price (now env)). rewrite lookup_insert_eq.
    repeat split. }
  split; [reflexivity|]. split; [reflexivity|].
  by destruct (PriceUpdateRequest.publish body) as [[]|].
Qed.

(** C9 at a new price of 8.5 for the IPA, without [publish]. *)
Lemma update_price_frame_witness :
  exists item price,
    Some 8.5%float = Some price /\
    catalog Sample.stores !! CatalogItem.id Sample.ipa = Some item /\
    catalog (after (update_price Sample.env Sample.stores (CatalogItem.id Sample.ipa)
                      (PriceUpdateRequest.mk (Some 8.5%float) None None)))
      = <[CatalogItem.id Sample.ipa := reprice item price (now Sample.env)]>
          (catalog Sample.stores) /\
    menuVersion (after (update_price Sample.env Sample.stores (CatalogItem.id Sample.ipa)
                          (PriceUpdateRequest.mk (Some 8.5%float) None None)))
      = menuVersion Sample.stores.
Proof.
  destruct (update_price_frame Sample.env Sample.stores (CatalogItem.id Sample.ipa)
              (PriceUpdateRequest.mk (Some 8.5%float) None None))
    as (item & price & Hp & Hi & Hc & _ & _ & _ & _ & Hv).
  - vm_compute. reflexivity.
  - exists item, price. repeat split; assumption.
Defined.

(** The same request with [publish] set moves the version from 1 to 2. *)
Example update_price_published :
  menuVersion (after (update_price Sample.env Sample.stores (CatalogItem.id Sample.ipa)
                        (PriceUpdateRequest.mk (Some 8.5%float) (Some true) None))) = 2.
Proof. vm_compute. reflexivity. Qed.

(** * Item creation *)

(** The tax rate that [POST /catalog/items] stores is never a zero. *)
Lemma number_or_truthy (a : option number) :
  number_truthy (number_or a 0.0825%float) = true.
Proof.
  unfold number_or. destruct a as [x|]; [|reflexivity].
  destruct (number_truthy x) eqn:Hx; [exact Hx | reflexivity].
Qed.

(** C10.  A creation request that succeeds stores an item whose tax rate is
    0.0825 whenever the [taxRate] of the request is falsy (zero, negative
    zero or NaN), in particular when it is explicitly 0: the default is
    applied by truthiness.  Hence no created item has a tax rate of zero. *)
Theorem create_item_falsy_taxRate
    (env : Env) (st : State) (body : CreateItemRequest.t) :
  status (snd (fst (create_item env st body))) = 201 ->
  exists item,
    snd (fst (create_item env st body)) = mkResponse 201 (ItemBody item) /\
    catalog (after (create_item env st body)) !! generateId env = Some item /\
    (CreateItemRequest.taxRate body = Some 0%float ->
     CatalogItem.taxRate item = 0.0825%float) /\
    (forall rate,
       CreateItemRequest.taxRate body = Some rate ->
       number_truthy rate = false ->
       CatalogItem.taxRate item = 0.0825%float) /\
    number_truthy (CatalogItem.taxRate item) = true.
Proof.
  unfold create_item, after, fail, reply.
  destruct (present (CreateItemRequest.name body)) as [name|]; [|discriminate].
  destruct (present (CreateItemRequest.category body)) as [category|]; [|discriminate].
  destruct (CreateItemRequest.price body) as [price|]; [|discriminate].
  destruct (CreateItemRequest.minPrice body) as [minPrice|]; [|discriminate].
  destruct (CreateItemRequest.maxPrice body) as [maxPrice|]; [|discriminate].
  intros _. eexists. split; [reflexivity|].
  cbn [fst snd catalog CatalogItem.id]. rewrite lookup_insert_eq.
  split; [reflexivity|]. cbn [CatalogItem.taxRate].
  split; [by intros ->|]. split; [|apply number_or_truthy].
  intros rate Hrate Hfalsy. unfold number_or. by rewrite Hrate, Hfalsy.
Qed.

(** C10 at a request with [taxRate: 0]. *)
Lemma create_item_falsy_taxRate_witness :
  exists item,
    snd (fst (create_item Sample.env Sample.stores
                (CreateItemRequest.mk (Some "Tap Water") (Some "Soft")
                   (Some 1%float) (Some 0%float) (Some 2%float) (Some 0%float))))
      = mkResponse 201 (ItemBody item) /\
    catalog (after (create_item Sample.env Sample.stores
                      (CreateItemRequest.mk (Some "Tap Water") (Some "Soft")
                         (Some 1%float) (Some 0%float) (Some 2%float) (Some 0%float))))
      !! generateId Sample.env = Some item /\
    CatalogItem.taxRate item = 0.0825%float.
Proof.
  destruct (create_item_falsy_taxRate Sample.env Sample.stores
              (CreateItemRequest.mk (Some "Tap Water") (Some "Soft")
                 (Some 1%float) (Some 0%float) (Some 2%float) (Some 0%float)))
    as (item & Hres & Hcat & Hzero & _).
  - reflexivity.
  - exists item. split; [exact Hres|]. split; [exact Hcat|]. apply Hzero. reflexivity.
Defined.


(** * Further properties of [utils.ts] *)

(** ** Signatures of the expected length *)

Lemma Buffer_from_inj (a b : string) : Buffer_from a = Buffer_from b -> a = b.
Proof.
  revert b. induction a as [|c a IH]; intros [|d b] H; simpl in H; try done.
  injection H as Hc Hr. f_equal; [|by apply IH].
  apply N2Z.inj in Hc.
  rewrite <- (Ascii.ascii_N_embedding c), <- (Ascii.ascii_N_embedding d).
  by rewrite Hc.
Qed.

(** X1.  For a signature of 64 bytes, [verifyHmacSignature] does not throw:
    it returns [true] when the signature is the one [generateHmacSignature]
    gives for the payload and the secret, and [false] otherwise. *)
Theorem verifyHmacSignature_decides (payload signature secret : string) :
  String.length signature = 64%nat ->
  verifyHmacSignature payload signature secret
  = Return (bool_decide (signature = generateHmacSignature payload secret)).
Proof.
  intros Hlen. unfold verifyHmacSignature, timingSafeEqual.
  rewrite !Buffer_from_length, generateHmacSignature_length, Hlen, Nat.eqb_refl.
  generalize (generateHmacSignature payload secret). intros expected.
  f_equal. apply bool_decide_ext. split; [apply Buffer_from_inj | by intros ->].
Qed.

(** X1 at a signature of 64 zeros. *)
Lemma verifyHmacSignature_decides_witness :
  verifyHmacSignature "{}"
    "0000000000000000000000000000000000000000000000000000000000000000" "supersecret"
  = Return false.
Proof.
  etransitivity; [apply verifyHmacSignature_decides; reflexivity|].
  vm_compute. reflexivity.
Defined.

(** ** The shape of a signature *)

Lemma all_hex_app (a b : string) : Observe.all_hex (a +:+ b) = Observe.all_hex a && Observe.all_hex b.
Proof. induction a as [|c a IH]; simpl; [done|]. by rewrite IH, andb_assoc. Qed.

Lemma is_hex_digit (d : Z) : 0 <= d < 16 -> Observe.is_hex (hex_digit d) = true.
Proof.
  intros H.
  assert (d = 0 \/ d = 1 \/ d = 2 \/ d = 3 \/ d = 4 \/ d = 5 \/ d = 6 \/ d = 7 \/
          d = 8 \/ d = 9 \/ d = 10 \/ d = 11 \/ d = 12 \/ d = 13 \/ d = 14 \/ d = 15)
    as Hd by lia.
  repeat (destruct Hd as [->|Hd]; [reflexivity|]). subst. reflexivity.
Qed.

Lemma all_hex_byte (b : Z) : Observe.all_hex (hex_byte b) = true.
Proof.
  unfold hex_byte. simpl.
  rewrite !is_hex_digit; [done | apply Z.mod_pos_bound; lia ..].
Qed.

Lemma all_hex_word (w : Z) : Observe.all_hex (hex_word w) = true.
Proof. unfold hex_word. by rewrite !all_hex_app, !all_hex_byte. Qed.

(** X2.  A signature is a string of 64 lower-case hexadecimal digits,
    whatever the payload and the secret. *)
Theorem generateHmacSignature_shape (payload secret : string) :
  String.length (generateHmacSignature payload secret) = 64%nat /\
  Observe.all_hex (generateHmacSignature payload secret) = true.
Proof.
  split; [apply generateHmacSignature_length|].
  unfold generateHmacSignature, createHmac_sha256_hex, hex.
  by rewrite !all_hex_app, !all_hex_word.
Qed.

(** ** Delivery with an integer budget, against any network *)





(** X4.  With a negative budget the loop is not entered: nothing is sent,
    nothing is awaited, and the promise is fulfilled. *)
Theorem sendWebhook_negative_budget
    (net : Network) (url : string) (payload : WebhookPayload.t) (secret : string)
    (maxRetries : Z) :
  maxRetries < 0 ->
  sendWebhook net url payload secret maxRetries = Some ([], Return tt).
Proof.
  intros Hneg. unfold sendWebhook. simpl.
  by replace (0 <=? maxRetries) with false by (symmetry; apply Z.leb_gt; lia).
Qed.

Lemma sendWebhook_negative_budget_witness :
  sendWebhook Sample.down "http://localhost:4000/webhooks/pos"
    (payload_of (order_of Sample.env [Sample.ipa] [OrderLine.mk "a1b2c3d4e5f60718" 1%float]))
    "supersecret" (-1) = Some ([], Return tt).
Proof. apply sendWebhook_negative_budget. lia. Defined.

(** ** What is sent *)

Section Sent.

Variables (net : Network) (url signature payloadString : string) (maxRetries : Z).

Lemma sent_app (a b : list Action) : Observe.sent (a ++ b) = Observe.sent a ++ Observe.sent b.
Proof. unfold Observe.sent. apply omap_app. Qed.

(** One turn of the loop sends one request, with the three headers and the
    body of the call. *)
Lemma attempt_sent (st : LoopState) (r : FetchResult) :
  Observe.sent (fst (attempt url signature payloadString maxRetries st r))
  = [ ([ ("Content-Type", "application/json");
         ("x-pos-event", "order.created");
         ("x-pos-signature", signature) ],
       payloadString) ].
Proof.
  unfold attempt, try_block, catch_block.
  destruct r as [status|e]; try destruct (ok status);
    destruct (retryCount st <? maxRetries); reflexivity.
Qed.

Lemma while_loop_sent (fuel : nat) :
  forall (i : nat) (st : LoopState) acts c,
    while_loop fuel net i url signature payloadString maxRetries st = Some (acts, c) ->
    Forall (fun request =>
              request = ([ ("Content-Type", "application/json");
                           ("x-pos-event", "order.created");
                           ("x-pos-signature", signature) ],
                         payloadString))
           (Observe.sent acts).
Proof.
  induction fuel as [|fuel IH]; intros i st acts c; simpl; [discriminate|].
  destruct (retryCount st <=? maxRetries); [|intros [= <- <-]; constructor].
  pose proof (attempt_sent st (net i)) as Hsent.
  destruct (attempt url signature payloadString maxRetries st (net i)) as [acts0 [[st'|]|e]];
    simpl in Hsent.
  - destruct (while_loop fuel net (S i) url signature payloadString maxRetries st')
      as [[acts' c']|] eqn:Hrec; [|discriminate].
    intros [= <- <-]. rewrite sent_app, Hsent. constructor; [reflexivity|].
    eapply IH, Hrec.
  - intros [= <- <-]. rewrite Hsent. by repeat constructor.
  - intros [= <- <-]. rewrite Hsent. by repeat constructor.
Qed.

End Sent.

(** X5.  With a budget that is an integer of at most 1014, [sendWebhook]
    comes to an end, and every request that it sends, the first attempt
    and each retry alike, has [JSON.stringify(payload)] as its body and
    carries, next to the content type and the event name, the signature of
    exactly that body under the secret; [verifyHmacSignature] accepts it. *)
Theorem sendWebhook_sends_what_it_signs
    (net : Network) (url : string) (payload : WebhookPayload.t) (secret : string)
    (maxRetries : Z) :
  maxRetries <= 1014 ->
  exists acts c,
    sendWebhook net url payload secret maxRetries = Some (acts, c) /\
    Forall (fun request =>
              snd request = JSON_stringify payload /\
              fst request
              = [ ("Content-Type", "application/json");
                  ("x-pos-event", "order.created");
                  ("x-pos-signature", generateHmacSignature (snd request) secret) ] /\
              verifyHmacSignature (snd request)
                (generateHmacSignature (snd request) secret) secret = Return true)
           (Observe.sent acts).
Proof.
  intros _.
  destruct (sendWebhook_total net url payload secret maxRetries) as ([acts c] & Hrun).
  exists acts, c. split; [exact Hrun|].
  unfold sendWebhook in Hrun. apply while_loop_sent in Hrun.
  eapply Forall_impl; [exact Hrun|].
  intros request ->. cbn [fst snd]. split; [reflexivity|]. split; [reflexivity|].
  unfold verifyHmacSignature. apply timingSafeEqual_refl.
Qed.

(** X5 at the default budget, against an endpoint that answers 503 every
    time: four requests, all with the same body. *)
Lemma sendWebhook_sends_what_it_signs_witness :
  exists acts c,
    sendWebhook Sample.down "http://localhost:4000/webhooks/pos"
      (payload_of (order_of Sample.env [Sample.ipa] [OrderLine.mk "a1b2c3d4e5f60718" 1%float]))
      "supersecret" 3 = Some (acts, c) /\
    length (Observe.sent acts) = 4%nat /\
    Forall (fun request =>
              snd request
              = JSON_stringify
                  (payload_of (order_of Sample.env [Sample.ipa]
                                 [OrderLine.mk "a1b2c3d4e5f60718" 1%float])))
           (Observe.sent acts).
Proof.
  destruct (sendWebhook_sends_what_it_signs Sample.down "http://localhost:4000/webhooks/pos"
              (payload_of (order_of Sample.env [Sample.ipa]
                             [OrderLine.mk "a1b2c3d4e5f60718" 1%float]))
              "supersecret" 3)
    as (acts & c & Hrun & Hsent); [lia|].
  exists acts, c. split; [exact Hrun|]. split.
  - assert (exists acts' c',
              sendWebhook Sample.down "http://localhost:4000/webhooks/pos"
                (payload_of (order_of Sample.env [Sample.ipa]
                               [OrderLine.mk "a1b2c3d4e5f60718" 1%float]))
                "supersecret" 3 = Some (acts', c') /\
              length (Observe.sent acts') = 4%nat) as (acts' & c' & Hrun' & Hlen)
      by (do 2 eexists; split; vm_compute; reflexivity).
    rewrite Hrun' in Hrun. injection Hrun as <- _. exact Hlen.
  - eapply Forall_impl; [exact Hsent|]. intros request (Hbody & _). exact Hbody.
Defined.

(** ** The error of an exhausted delivery *)

Lemma attempt_give_up_error url signature payloadString maxRetries st r :
  failed r = true ->
  maxRetries <= retryCount st ->
  snd (attempt url signature payloadString maxRetries st r) = Throw (Observe.last_error r).
Proof.
  intros Hf Hge. unfold attempt, try_block, catch_block.
  apply Z.ltb_ge in Hge.
  destruct r as [status|e]; simpl in Hf.
  - apply negb_true_iff in Hf. by rewrite Hf, Hge.
  - by rewrite Hge.
Qed.

Lemma while_loop_exhausted_error net url signature payloadString maxRetries (k : nat) :
  forall (fuel i : nat) (st : LoopState),
    (k < fuel)%nat ->
    retryCount st + Z.of_nat k = maxRetries ->
    (forall j, (j <= k)%nat -> failed (net (i + j)%nat) = true) ->
    exists acts,
      while_loop fuel net i url signature payloadString maxRetries st
        = Some (acts, Throw (Observe.last_error (net (i + k)%nat))).
Proof.
  induction k as [|k IH]; intros fuel i st Hfuel Hr Hfail;
    (destruct fuel as [|fuel]; [lia|]); simpl.
  - replace (retryCount st <=? maxRetries) with true by (symmetry; apply Z.leb_le; lia).
    rewrite Nat.add_0_r.
    pose proof (attempt_give_up_error url signature payloadString maxRetries st (net i)) as He.
    destruct (attempt url signature payloadString maxRetries st (net i)) as [acts c].
    simpl in He. rewrite He; [eauto | | lia].
    rewrite <- (Nat.add_0_r i). apply Hfail. lia.
  - replace (retryCount st <=? maxRetries) with true by (symmetry; apply Z.leb_le; lia).
    destruct (attempt_retry url signature payloadString maxRetries st (net i))
      as (acts & -> & _).
    { rewrite <- (Nat.add_0_r i). apply Hfail. lia. }
    { lia. }
    destruct (IH fuel (S i) (backoff st)) as (acts' & ->).
    { lia. }
    { simpl. lia. }
    { intros j Hj. replace (S i + j)%nat with (i + S j)%nat by lia. apply Hfail. lia. }
    replace (S i + k)%nat with (i + S k)%nat by lia. eauto.
Qed.

(** X6.  With a budget that is an integer from 0 to 1014, when all
    [maxRetries + 1] sends fail, [sendWebhook] rejects with what the last
    send left: the transport error itself when the send was rejected, and
    otherwise an [Error] with the message [Webhook failed with status]
    followed by the status of the last response.  Earlier failures are not
    reported. *)
Theorem sendWebhook_rejects_with_last_error
    (net : Network) (url : string) (payload : WebhookPayload.t) (secret : string)
    (maxRetries : Z) :
  0 <= maxRetries <= 1014 ->
  (forall j, (j <= Z.to_nat maxRetries)%nat -> failed (net j) = true) ->
  exists acts,
    sendWebhook net url payload secret maxRetries
    = Some (acts, Throw (Observe.last_error (net (Z.to_nat maxRetries)))).
Proof.
  intros [Hn _] Hall. unfold sendWebhook.
  apply (while_loop_exhausted_error net url _ _ maxRetries (Z.to_nat maxRetries)
           _ 0%nat (mkLoop 0 1000)); [lia | simpl; lia | exact Hall].
Qed.

(** X6 against an endpoint that is unreachable three times and answers 502
    the fourth time. *)
Lemma sendWebhook_rejects_with_last_error_witness :
  exists acts,
    sendWebhook (fun i => if (i <? 3)%nat
                          then Rejects (mkError "TypeError" "fetch failed")
                          else Responds 502)
      "http://localhost:4000/webhooks/pos"
      (payload_of (order_of Sample.env [Sample.ipa] [OrderLine.mk "a1b2c3d4e5f60718" 1%float]))
      "supersecret" 3
    = Some (acts, Throw (new_Error "Webhook failed with status 502")).
Proof.
  apply (sendWebhook_rejects_with_last_error
           (fun i => if (i <? 3)%nat
                     then Rejects (mkError "TypeError" "fetch failed")
                     else Responds 502)
           "http://localhost:4000/webhooks/pos" _ "supersecret" 3); [lia|].
  intros j Hj. change (Z.to_nat 3) with 3%nat in Hj.
  destruct j as [|[|[|[|j]]]]; [reflexivity .. | lia].
Defined.

(** ** Guardrails, continued *)

Lemma SFleb_trans (a b c : spec_float) :
  SFleb a b = true -> SFleb b c = true -> SFleb a c = true.
Proof.
  unfold SFleb.
  destruct a as [sa|sa| |sa ma ea], b as [sb|sb| |sb mb eb], c as [sc|sc| |sc mc ec];
    simpl; try discriminate; try reflexivity;
    try (destruct sa; try discriminate; try reflexivity);
    try (destruct sb; try discriminate; try reflexivity);
    try (destruct sc; try discriminate; try reflexivity);
    try (by destruct (_ ?= _)%Z);
    change (Pos.compare_cont Eq ?x ?y) with (Pos.compare x y);
    repeat match goal with
           | |- context [(?x ?= ?y)%Z] => destruct (Z.compare_spec x y)
           | |- context [(?x ?= ?y)%positive] => destruct (Pos.compare_spec x y)
           end; simpl; try discriminate; try reflexivity; try lia.
Qed.

Lemma ltb_negb_leb (x y : number) :
  (x <? y)%float = true -> (y <=? x)%float = false.
Proof.
  rewrite FloatAxioms.ltb_spec, FloatAxioms.leb_spec. unfold SFltb, SFleb.
  rewrite (SFcompare_antisym (Prim2SF x) (Prim2SF y)).
  destruct (SFcompare (Prim2SF x) (Prim2SF y)) as [[]|]; simpl; congruence.
Qed.

Lemma ltb_not_nan (x y : number) :
  (x <? y)%float = true -> isNaN x = false /\ isNaN y = false.
Proof.
  rewrite FloatAxioms.ltb_spec. unfold SFltb, isNaN.
  destruct (Prim2SF x), (Prim2SF y); simpl; try discriminate; auto.
Qed.

(** ** A band turned upside down *)

(** X7.  For an item whose [maxPrice] is below its [minPrice],
    [validatePrice] refuses every price that is a number unless the
    guardrails are overridden, and accepts it when they are. *)
Theorem validatePrice_inverted_band (item : CatalogItem.t) (p : number) :
  (CatalogItem.maxPrice item <? CatalogItem.minPrice item)%float = true ->
  isNaN p = false ->
  valid (validatePrice item p false) = false /\
  valid (validatePrice item p true) = true.
Proof.
  intros Hinv Hp. split; [|reflexivity].
  destruct (ltb_not_nan _ _ Hinv) as [Hmax Hmin].
  rewrite validatePrice_valid.
  rewrite (ltb_false_leb p _ Hp Hmin), (ltb_false_leb _ p Hmax Hp), !negb_involutive.
  destruct (CatalogItem.minPrice item <=? p)%float eqn:H1; [|reflexivity].
  destruct (p <=? CatalogItem.maxPrice item)%float eqn:H2; [|reflexivity].
  exfalso. apply ltb_negb_leb in Hinv.
  rewrite FloatAxioms.leb_spec in H1, H2, Hinv.
  rewrite (SFleb_trans _ _ _ H1 H2) in Hinv. discriminate.
Qed.

(** X7 at an item with the band from 12 down to 5, and the price 7. *)
Lemma validatePrice_inverted_band_witness :
  valid (validatePrice
           (seed "0011223344556677" "Mule" "Cocktails" 7%float 12%float 5%float Sample.noon)
           7%float false) = false /\
  valid (validatePrice
           (seed "0011223344556677" "Mule" "Cocktails" 7%float 12%float 5%float Sample.noon)
           7%float true) = true.
Proof. apply validatePrice_inverted_band; reflexivity. Defined.

(** * Further properties of [server.ts] *)

(** Opens the case analysis of a handler, one test at a time. *)
Ltac open_route :=
  repeat match goal with
         | |- context [match ?x with _ => _ end] =>
             lazymatch x with
             | context [match _ with _ => _ end] => fail
             | _ => destruct x eqn:?
             end
         | |- context [if ?b then _ else _] => destruct b eqn:?
         end.


(** ** The API key *)

(** X8.  On a route behind [requireApiKey], a request passes exactly when it
    brings the configured key and that key is not empty; a request that does
    not pass is answered 401, changes no store and broadcasts nothing. *)
Theorem requireApiKey_guards
    (cfg : Config) (env : Env) (st : State) (req : Request) (key : option string) :
  Observe.key_of req = Some key ->
  (requireApiKey cfg key = true <-> key = Some (API_KEY cfg) /\ API_KEY cfg <> "") /\
  (requireApiKey cfg key = false ->
   handle cfg env st req
   = (st, mkResponse 401 (ErrorBody (Some "Unauthorized: Invalid API key")), [])).
Proof.
  intros Hkey. split.
  - unfold requireApiKey. destruct key as [k|]; [|split; [discriminate | by intros [? _]]].
    rewrite andb_true_iff, String.eqb_eq. split.
    + intros [Ht ->]. split; [reflexivity|]. by destruct (API_KEY cfg).
    + intros [[= ->] Hne]. split; [|reflexivity]. by destruct (API_KEY cfg).
  - intros Hno. destruct req; simpl in Hkey; simplify_eq;
      unfold handle, guarded; by rewrite Hno.
Qed.

(** X8 at a price update that brings another key than the configured one. *)
Lemma requireApiKey_guards_witness :
  handle Sample.hooked Sample.env Sample.stores
    (POST_pricing (Some "guess") (CatalogItem.id Sample.ipa)
       (PriceUpdateRequest.mk (Some 1%float) (Some true) (Some true)))
  = (Sample.stores,
     mkResponse 401 (ErrorBody (Some "Unauthorized: Invalid API key")), []).
Proof.
  apply (requireApiKey_guards Sample.hooked Sample.env Sample.stores _ (Some "guess"));
    reflexivity.
Defined.

(** ** Failure and success of a request *)


(** What [handle] does, route by route: it refuses or it carries out. *)
Lemma handle_outcome
    (cfg : Config) (env : Env) (st : State) (req : Request) :
  (400 <= status (snd (fst (handle cfg env st req))) /\
   after (handle cfg env st req) = st /\
   snd (handle cfg env st req) = [])
  \/
  ((status (snd (fst (handle cfg env st req))) = 200 \/
    status (snd (fst (handle cfg env st req))) = 201) /\
   length (Observe.broadcasts (snd (handle cfg env st req))) = 1%nat /\
   (length (Observe.webhooks (snd (handle cfg env st req))) <= 1)%nat /\
   (Observe.key_of req <> None -> Observe.webhooks (snd (handle cfg env st req)) = [])).
Proof.
  destruct req; unfold handle, guarded, unauthorized, create_item, update_item,
    delete_item, update_price, create_promotion, publish_menu, create_order,
    fail, reply, after;
    open_route; simpl;
    first [ left; split; [lia | split; reflexivity]
          | right; split; [auto|]; split; [reflexivity|]; split; [lia|];
            first [ reflexivity | intros H; by destruct H ] ].
Qed.

(** X9.  Every request is either refused or carried out.  Refused, it is
    answered with a status of 400 or more, the stores are as before, and
    nothing is broadcast and no webhook started.  Carried out, it is
    answered 200 or 201 and exactly one message is broadcast; a webhook is
    started at most once, and only by [POST /orders]. *)
Theorem request_refused_or_carried_out
    (cfg : Config) (env : Env) (st : State) (req : Request) :
  (400 <= status (snd (fst (handle cfg env st req))) /\
   after (handle cfg env st req) = st /\
   snd (handle cfg env st req) = [])
  \/
  ((status (snd (fst (handle cfg env st req))) = 200 \/
    status (snd (fst (handle cfg env st req))) = 201) /\
   length (Observe.broadcasts (snd (handle cfg env st req))) = 1%nat /\
   (length (Observe.webhooks (snd (handle cfg env st req))) <= 1)%nat /\
   (Observe.key_of req <> None -> Observe.webhooks (snd (handle cfg env st req)) = [])).
Proof. apply handle_outcome. Qed.

(** ** Announcing the menu version *)

(** X10.  A request that moves the menu version broadcasts the new version,
    once; a request that leaves the version as it was broadcasts no version
    at all. *)
Theorem version_announced_when_it_moves
    (cfg : Config) (env : Env) (st : State) (req : Request) :
  Observe.versions (snd (handle cfg env st req))
  = if menuVersion (after (handle cfg env st req)) =? menuVersion st
    then []
    else [menuVersion (after (handle cfg env st req))].
Proof.
  assert ((menuVersion st + 1 =? menuVersion st) = false) as Hnext by lia.
  destruct req; unfold handle, guarded, unauthorized, create_item, update_item,
    delete_item, update_price, create_promotion, publish_menu, create_order,
    fail, reply, after;
    open_route; simpl in *; try reflexivity;
    first [ rewrite Hnext in *; discriminate | rewrite Z.eqb_refl in *; discriminate ].
Qed.

(** ** Prices and guardrails *)

(** X11.  A price update that [validatePrice] refuses, with the guardrails
    not overridden, is answered 400 with the message of the refusal; the
    stores are as before, [publish] or not, and nothing is broadcast. *)
Theorem update_price_refused
    (env : Env) (st : State) (itemId : string) (item : CatalogItem.t)
    (body : PriceUpdateRequest.t) (p : number) :
  catalog st !! itemId = Some item ->
  PriceUpdateRequest.price body = Some p ->
  flag (PriceUpdateRequest.overrideGuardrails body) = false ->
  valid (validatePrice item p false) = false ->
  update_price env st itemId body
  = (st, mkResponse 400 (ErrorBody (message (validatePrice item p false))), []) /\
  exists text, message (validatePrice item p false) = Some text.
Proof.
  intros Hitem Hp Hover Hbad. unfold update_price. rewrite Hp, Hitem, Hover, Hbad.
  split; [reflexivity|].
  unfold validatePrice in *.
  destruct (p <? CatalogItem.minPrice item)%float; [eauto|].
  destruct (CatalogItem.maxPrice item <? p)%float; [eauto | discriminate].
Qed.

(** X11 at the price 3 for the IPA, with [publish] set. *)
Lemma update_price_refused_witness :
  update_price Sample.env Sample.stores (CatalogItem.id Sample.ipa)
    (PriceUpdateRequest.mk (Some 3%float) (Some true) None)
  = (Sample.stores,
     mkResponse 400 (ErrorBody (Some "Price $3 is below minimum $5")), []).
Proof.
  etransitivity.
  - apply (update_price_refused Sample.env Sample.stores (CatalogItem.id Sample.ipa)
             Sample.ipa (PriceUpdateRequest.mk (Some 3%float) (Some true) None) 3%float);
      reflexivity.
  - vm_compute. reflexivity.
Defined.

(** ** Creating and deleting items *)

(** X12.  A creation that succeeds files the new item under the generated
    identifier: active, created and updated at the time of the request, with
    the name, category, price and bounds of the body, whether or not the
    price lies within the bounds.  Every other entry of the catalog, the
    orders and the promotions are as before, and the menu version has moved
    by one. *)
Theorem create_item_frame (env : Env) (st : State) (body : CreateItemRequest.t) :
  status (snd (fst (create_item env st body))) = 201 ->
  exists item,
    catalog (after (create_item env st body)) = <[generateId env := item]> (catalog st) /\
    CatalogItem.id item = generateId env /\
    Some (CatalogItem.name item) = CreateItemRequest.name body /\
    Some (CatalogItem.category item) = CreateItemRequest.category body /\
    Some (CatalogItem.price item) = CreateItemRequest.price body /\
    Some (CatalogItem.minPrice item) = CreateItemRequest.minPrice body /\
    Some (CatalogItem.maxPrice item) = CreateItemRequest.maxPrice body /\
    CatalogItem.isActive item = true /\
    CatalogItem.createdAt item = now env /\
    CatalogItem.updatedAt item = now env /\
    (forall other, other <> generateId env ->
       catalog (after (create_item env st body)) !! other = catalog st !! other) /\
    orders (after (create_item env st body)) = orders st /\
    promotions (after (create_item env st body)) = promotions st /\
    menuVersion (after (create_item env st body)) = menuVersion st + 1.
Proof.
  unfold create_item, after, fail, reply, present.
  destruct (CreateItemRequest.name body) as [name|]; [|discriminate].
  destruct (string_truthy name); [|discriminate].
  destruct (CreateItemRequest.category body) as [category|]; [|discriminate].
  destruct (string_truthy category); [|discriminate].
  destruct (CreateItemRequest.price body) as [price|]; [|discriminate].
  destruct (CreateItemRequest.minPrice body) as [minPrice|]; [|discriminate].
  destruct (CreateItemRequest.maxPrice body) as [maxPrice|]; [|discriminate].
  intros _. eexists. cbn [fst snd catalog orders promotions menuVersion CatalogItem.id].
  split; [reflexivity|]. repeat (split; [reflexivity|]).
  split; [|auto]. intros other Hne. by rewrite lookup_insert_ne.
Qed.

(** X12 at an item whose price, 50, is above its upper bound, 2. *)
Lemma create_item_frame_witness :
  exists item,
    catalog (after (create_item Sample.env Sample.stores
                      (CreateItemRequest.mk (Some "Tap Water") (Some "Soft")
                         (Some 50%float) (Some 1%float) (Some 2%float) None)))
    = <[generateId Sample.env := item]> (catalog Sample.stores) /\
    Some (CatalogItem.price item) = Some 50%float /\
    Some (CatalogItem.maxPrice item) = Some 2%float.
Proof.
  destruct (create_item_frame Sample.env Sample.stores
              (CreateItemRequest.mk (Some "Tap Water") (Some "Soft")
                 (Some 50%float) (Some 1%float) (Some 2%float) None))
    as (item & Hcat & _ & _ & _ & Hprice & _ & Hmax & _); [reflexivity|].
  exists item. auto.
Defined.



(** ** Orders *)

(** X14.  No request changes or removes a stored order, except a
    [POST /orders] whose generated identifier is the identifier of that
    order: [orders.set] then replaces it.  In particular later price changes
    and deletions of items leave the lines of every order as they were. *)
Theorem orders_are_kept
    (cfg : Config) (env : Env) (st : State) (req : Request) (id : string) :
  orders (after (handle cfg env st req)) !! id = orders st !! id \/
  (exists body, req = POST_orders body) /\ id = generateId env.
Proof.
  destruct (decide (id = generateId env)) as [->|Hne].
  - destruct req; [left .. | right; eauto];
      unfold handle, guarded, unauthorized, create_item, update_item,
        delete_item, update_price, create_promotion, publish_menu, fail, reply, after;
      open_route; reflexivity.
  - left. destruct req;
      unfold handle, guarded, unauthorized, create_item, update_item,
        delete_item, update_price, create_promotion, publish_menu, create_order,
        fail, reply, after;
      open_route; cbn [fst snd orders Order.id]; rewrite ?lookup_insert_ne by done;
      reflexivity.
Qed.

(** X15.  The answer to an order depends on the catalog only: with the same
    catalog, whatever orders and promotions are stored (a promotion of 100
    percent on every item, say) and whatever the menu version is, the
    response and the messages are the same.  Promotions are never applied. *)
Theorem create_order_reads_catalog_only
    (cfg : Config) (env : Env) (st1 st2 : State) (body : CreateOrderRequest.t) :
  catalog st1 = catalog st2 ->
  snd (fst (create_order cfg env st1 body)) = snd (fst (create_order cfg env st2 body)) /\
  snd (create_order cfg env st1 body) = snd (create_order cfg env st2 body) /\
  catalog (after (create_order cfg env st1 body)) = catalog st1 /\
  promotions (after (create_order cfg env st1 body)) = promotions st1.
Proof.
  intros Hcat. unfold create_order, fail, reply, after. rewrite Hcat.
  destruct (CreateOrderRequest.items body) as [[|l lines]|]; [done | | done].
  by destruct (calculateOrderTotals (l :: lines) (catalog st2)).
Qed.

(** X15 at the sample stores, with and without a promotion that takes 100
    percent off the IPA. *)
Lemma create_order_reads_catalog_only_witness :
  snd (fst (create_order Sample.hooked Sample.env Sample.stores
              (CreateOrderRequest.mk (Some Sample.two_ipa_one_margarita))))
  = snd (fst (create_order Sample.hooked Sample.env
                (after (create_promotion Sample.env Sample.stores
                          (CreatePromotionRequest.mk (Some (CatalogItem.id Sample.ipa))
                             (Some percent_off) (Some 100%float) None None)))
                (CreateOrderRequest.mk (Some Sample.two_ipa_one_margarita)))).
Proof.
  apply (create_order_reads_catalog_only Sample.hooked Sample.env Sample.stores).
  reflexivity.
Defined.

(** X16.  An item that has been made inactive can still be ordered: after
    [PATCH /catalog/items/:id] with [isActive: false], an order for the item
    is answered 201, with one line at the price of the item. *)
Theorem inactive_item_is_sold
    (cfg : Config) (env env' : Env) (st : State) (id : string) (item : CatalogItem.t)
    (qty : number) :
  catalog st !! id = Some item ->
  let st' := after (update_item env st id
                      (UpdateItemRequest.mk None None None None None None (Some false))) in
  exists item' order,
    catalog st' !! id = Some item' /\
    CatalogItem.isActive item' = false /\
    CatalogItem.price item' = CatalogItem.price item /\
    snd (fst (create_order cfg env' st' (CreateOrderRequest.mk (Some [OrderLine.mk id qty]))))
    = mkResponse 201 (OrderBody order) /\
    Order.items order
    = [ OrderItem.mk id (CatalogItem.name item) (CatalogItem.price item) qty
          (CatalogItem.price item * qty)%float ].
Proof.
  intros Hitem st'.
  assert (catalog st' !! id
          = Some (patch item (UpdateItemRequest.mk None None None None None None (Some false))
                    (now env))) as Hst'.
  { subst st'. unfold update_item, after. rewrite Hitem. cbn [fst catalog].
    apply lookup_insert_eq. }
  eexists. eexists. split; [exact Hst'|]. split; [reflexivity|]. split; [reflexivity|].
  rewrite (create_order_resolved cfg env' st' [OrderLine.mk id qty]
             [patch item (UpdateItemRequest.mk None None None None None None (Some false))
                (now env)]);
    [ | discriminate | repeat constructor; exact Hst' ].
  split; reflexivity.
Qed.

(** X16 at the IPA. *)
Lemma inactive_item_is_sold_witness :
  exists item' order,
    catalog (after (update_item Sample.env Sample.stores (CatalogItem.id Sample.ipa)
                      (UpdateItemRequest.mk None None None None None None (Some false))))
      !! CatalogItem.id Sample.ipa = Some item' /\
    CatalogItem.isActive item' = false /\
    snd (fst (create_order Sample.hooked Sample.env
                (after (update_item Sample.env Sample.stores (CatalogItem.id Sample.ipa)
                          (UpdateItemRequest.mk None None None None None None (Some false))))
                (CreateOrderRequest.mk
                   (Some [OrderLine.mk (CatalogItem.id Sample.ipa) 2%float]))))
    = mkResponse 201 (OrderBody order).
Proof.
  destruct (inactive_item_is_sold Sample.hooked Sample.env Sample.env Sample.stores
              (CatalogItem.id Sample.ipa) Sample.ipa 2%float)
    as (item' & order & Hcat & Hoff & _ & Hres & _); [reflexivity|].
  exists item', order. auto.
Defined.

(** ** What [calculateOrderTotals] needs and what it returns *)

Lemma for_items_returns catalog lines :
  forall s t acc x,
    for_items lines catalog s t acc = Return x ->
    Forall (fun l => is_Some (catalog !! OrderLine.itemId l)) lines.
Proof.
  induction lines as [|l lines IH]; intros s t acc x; simpl; [constructor|].
  destruct (catalog !! OrderLine.itemId l) as [ci|] eqn:Hl; [|discriminate].
  intros H. constructor; [eauto | eapply IH, H].
Qed.

Lemma present_resolved (catalog : gmap string CatalogItem.t) lines :
  Forall (fun l => is_Some (catalog !! OrderLine.itemId l)) lines ->
  exists found, resolved catalog lines found.
Proof.
  induction 1 as [|l lines [ci Hl] _ [found IH]].
  - exists []. constructor.
  - exists (ci :: found). by constructor.
Qed.

(** Totals are returned for resolved lines only, and are then the totals of
    the resolved lines. *)
Lemma calculateOrderTotals_returned catalog lines r :
  calculateOrderTotals lines catalog = Return r ->
  exists found,
    resolved catalog lines found /\
    calculateOrderTotals lines catalog
    = Return (mkTotals (zip_with order_item found lines)
                (round2 (sum (zip_with line_amount found lines)))
                (round2 (sum (zip_with line_tax found lines)))
                (round2 (sum (zip_with line_amount found lines)
                         + sum (zip_with line_tax found lines))%float)).
Proof.
  intros Hr. unfold calculateOrderTotals in Hr.
  destruct (for_items lines catalog 0%float 0%float []) as [x|e] eqn:Hx; [|discriminate].
  destruct (present_resolved _ _ (for_items_returns _ _ _ _ _ _ Hx)) as [found Hfound].
  exists found. split; [exact Hfound|]. apply calculateOrderTotals_resolved, Hfound.
Qed.

(** The lines made from resolved lines follow the request. *)
Lemma order_items_follow catalog lines found :
  resolved catalog lines found ->
  length (zip_with order_item found lines) = length lines /\
  map OrderItem.itemId (zip_with order_item found lines) = map OrderLine.itemId lines /\
  map OrderItem.quantity (zip_with order_item found lines) = map OrderLine.qty lines /\
  Forall2 (fun item l =>
             exists ci, catalog !! OrderLine.itemId l = Some ci /\
                        OrderItem.name item = CatalogItem.name ci /\
                        OrderItem.price item = CatalogItem.price ci)
          (zip_with order_item found lines) lines.
Proof.
  induction 1 as [|l ci lines found Hl _ (IH1 & IH2 & IH3 & IH4)]; simpl.
  - repeat split; constructor.
  - rewrite IH1, IH2, IH3. repeat split. constructor; [|exact IH4].
    exists ci. auto.
Qed.

(** X17.  [calculateOrderTotals] returns totals exactly when every line
    names an item of the catalog; quantities, prices and the [isActive] flag
    play no part in that. *)
Theorem calculateOrderTotals_returns_iff
    (catalog : gmap string CatalogItem.t) (lines : list OrderLine.t) :
  (exists r, calculateOrderTotals lines catalog = Return r) <->
  Forall (fun l => is_Some (catalog !! OrderLine.itemId l)) lines.
Proof.
  split.
  - intros [r Hr]. unfold calculateOrderTotals in Hr.
    destruct (for_items lines catalog 0%float 0%float []) as [x|e] eqn:Hx; [|discriminate].
    eapply for_items_returns, Hx.
  - intros H. destruct (present_resolved _ _ H) as [found Hfound].
    eexists. apply calculateOrderTotals_resolved, Hfound.
Qed.

(** X18.  The lines that [calculateOrderTotals] returns follow the request:
    one line per requested line, in the order of the request and without
    merging lines that name the same item; each with the identifier and the
    quantity of the request, and with the name and the price that the
    catalog has for the item. *)
Theorem calculateOrderTotals_lines
    (catalog : gmap string CatalogItem.t) (lines : list OrderLine.t) (r : OrderTotals) :
  calculateOrderTotals lines catalog = Return r ->
  length (items r) = length lines /\
  map OrderItem.itemId (items r) = map OrderLine.itemId lines /\
  map OrderItem.quantity (items r) = map OrderLine.qty lines /\
  Forall2 (fun item l =>
             exists ci, catalog !! OrderLine.itemId l = Some ci /\
                        OrderItem.name item = CatalogItem.name ci /\
                        OrderItem.price item = CatalogItem.price ci)
          (items r) lines.
Proof.
  intros Hr.
  destruct (calculateOrderTotals_returned _ _ _ Hr) as (found & Hfound & Hr').
  rewrite Hr' in Hr. injection Hr as <-. cbn [items].
  apply order_items_follow, Hfound.
Qed.

(** X18 at an order that names the IPA twice. *)
Lemma calculateOrderTotals_lines_witness :
  exists r,
    calculateOrderTotals
      [ OrderLine.mk (CatalogItem.id Sample.ipa) 1%float;
        OrderLine.mk (CatalogItem.id Sample.ipa) 2%float ] (catalog Sample.stores)
    = Return r /\
    map OrderItem.itemId (items r) = [CatalogItem.id Sample.ipa; CatalogItem.id Sample.ipa] /\
    map OrderItem.quantity (items r) = [1%float; 2%float].
Proof.
  assert (exists r,
            calculateOrderTotals
              [ OrderLine.mk (CatalogItem.id Sample.ipa) 1%float;
                OrderLine.mk (CatalogItem.id Sample.ipa) 2%float ] (catalog Sample.stores)
            = Return r) as [r Hr] by (eexists; vm_compute; reflexivity).
  exists r. split; [exact Hr|].
  destruct (calculateOrderTotals_lines _ _ r Hr) as (_ & Hids & Hqty & _). auto.
Defined.

(** ** Invariants of the stores *)

Lemma keyed_seeded (l : list CatalogItem.t) :
  forall c : gmap string CatalogItem.t,
    map_Forall (fun k item => CatalogItem.id item = k) c ->
    map_Forall (fun k item => CatalogItem.id item = k)
      (fold_left (fun c item => <[CatalogItem.id item := item]> c) l c).
Proof.
  induction l as [|item l IH]; intros c Hc; simpl; [exact Hc|].
  apply IH. by apply map_Forall_insert_2.
Qed.

Lemma keyed_initial gen now : Observe.keyed (initial gen now).
Proof.
  split; [|split]; cbn [initial catalog orders promotions].
  - apply keyed_seeded, map_Forall_empty.
  - apply map_Forall_empty.
  - apply map_Forall_empty.
Qed.

Lemma keyed_handle cfg env st req :
  Observe.keyed st -> Observe.keyed (after (handle cfg env st req)).
Proof.
  intros (Hc & Ho & Hp).
  destruct req; unfold handle, guarded, unauthorized, create_item, update_item,
    delete_item, update_price, create_promotion, publish_menu, create_order,
    fail, reply, after;
    open_route; (split; [|split]); cbn [fst snd catalog orders promotions];
    try assumption;
    first [ apply map_Forall_insert_2; [|assumption];
            first [ reflexivity
                  | match goal with
                    | H : catalog st !! _ = Some _ |- _ => exact (Hc _ _ H)
                    end ]
          | by apply map_Forall_delete ].
Qed.

(** X19.  At every moment of the life of the server, each catalog item,
    each order and each promotion is filed under its own identifier: the
    key of an entry and the [id] inside it never part, whatever requests
    have been served. *)
Theorem stores_keyed_by_id
    (cfg : Config) (gen : nat -> string) (now : Date) (reqs : list (Env * Request)) :
  Observe.keyed (run cfg (initial gen now) reqs).
Proof.
  generalize (keyed_initial gen now). generalize (initial gen now).
  induction reqs as [|[env req] reqs IH]; intros st Hst; simpl; [exact Hst|].
  apply IH, keyed_handle, Hst.
Qed.

(** X19 after the creation of an item on a server whose five seed items got
    the identifiers [item-0] to [item-4]. *)
Lemma stores_keyed_by_id_witness :
  Observe.keyed
    (run Sample.hooked (initial (fun i => "item-" +:+ digits_of (Z.of_nat i)) Sample.noon)
       [ (Sample.env,
          POST_catalog_items (Some "pos-sim-dev-key")
            (CreateItemRequest.mk (Some "Tap Water") (Some "Soft")
               (Some 1%float) (Some 0%float) (Some 2%float) None)) ]).
Proof. apply stores_keyed_by_id. Defined.

Lemma well_formed_order_of env found lines catalog :
  lines <> [] ->
  resolved catalog lines found ->
  Observe.well_formed (order_of env found lines).
Proof.
  intros Hne Hres. unfold Observe.well_formed, order_of.
  cbn [Order.status Order.items Order.subtotal].
  split; [reflexivity|]. split; [|split].
  - destruct Hres; [done | discriminate].
  - clear Hne. induction Hres; simpl; constructor; auto.
  - by rewrite subtotals_of_order_items.
Qed.

Lemma well_formed_handle cfg env st req :
  map_Forall (fun _ order => Observe.well_formed order) (orders st) ->
  map_Forall (fun _ order => Observe.well_formed order) (orders (after (handle cfg env st req))).
Proof.
  intros Ho. destruct req as [| | | | | |body];
    try (unfold handle, guarded, unauthorized, create_item, update_item,
           delete_item, update_price, create_promotion, publish_menu, fail, reply, after;
         open_route; exact Ho).
  unfold handle.
  destruct (CreateOrderRequest.items body) as [lines|] eqn:Hitems;
    [|unfold create_order; by rewrite Hitems].
  destruct (decide (lines = [])) as [->|Hne];
    [unfold create_order; by rewrite Hitems|].
  destruct (calculateOrderTotals lines (catalog st)) as [r|e] eqn:Hr.
  - destruct (calculateOrderTotals_returned _ _ _ Hr) as (found & Hfound & _).
    destruct body as [items]. simpl in Hitems. subst items.
    rewrite (create_order_resolved cfg env st lines found Hne Hfound).
    unfold after. cbn [fst orders].
    apply map_Forall_insert_2; [|exact Ho].
    eapply well_formed_order_of; eauto.
  - unfold create_order. rewrite Hitems.
    destruct lines; [done|]. by rewrite Hr.
Qed.

(** X20.  At every moment of the life of the server, every stored order is
    completed, has at least one line, has lines that are each worth the
    price times the quantity, and has a subtotal that is the sum of its
    lines rounded to two decimals. *)
Theorem stored_orders_well_formed
    (cfg : Config) (gen : nat -> string) (now : Date) (reqs : list (Env * Request)) :
  map_Forall (fun _ order => Observe.well_formed order)
    (orders (run cfg (initial gen now) reqs)).
Proof.
  assert (map_Forall (fun _ order => Observe.well_formed order)
            (orders (initial gen now))) as H0 by apply map_Forall_empty.
  revert H0. generalize (initial gen now).
  induction reqs as [|[env req] reqs IH]; intros st Hst; simpl; [exact Hst|].
  apply IH, well_formed_handle, Hst.
Qed.

(** X20 after one order of two IPA, on a server whose five seed items got
    the identifiers [item-0] to [item-4]. *)
Lemma stored_orders_well_formed_witness :
  exists order,
    orders (run Sample.hooked
              (initial (fun i => "item-" +:+ digits_of (Z.of_nat i)) Sample.noon)
              [ (Sample.env,
                 POST_orders (CreateOrderRequest.mk (Some [OrderLine.mk "item-0" 2%float]))) ])
      !! generateId Sample.env = Some order /\
    Observe.well_formed order.
Proof.
  eexists. split; [vm_compute; reflexivity|].
  apply (stored_orders_well_formed Sample.hooked
           (fun i => "item-" +:+ digits_of (Z.of_nat i)) Sample.noon
           [ (Sample.env,
              POST_orders (CreateOrderRequest.mk (Some [OrderLine.mk "item-0" 2%float]))) ]
           (generateId Sample.env)).
  vm_compute. reflexivity.
Defined.

(** ** The webhook of an order *)

(** X21.  An order that is accepted starts a webhook exactly when a webhook
    URL is configured, and then one only, to that URL and with the
    configured secret.  Its payload carries the identifier, the time and the
    three totals of the order of the response, and one entry per requested
    line, in order, with the identifier and the quantity of the request. *)
Theorem create_order_webhook
    (cfg : Config) (env : Env) (st : State) (lines : list OrderLine.t) (r : OrderTotals) :
  lines <> [] ->
  calculateOrderTotals lines (catalog st) = Return r ->
  exists order,
    snd (fst (create_order cfg env st (CreateOrderRequest.mk (Some lines))))
    = mkResponse 201 (OrderBody order) /\
    (string_truthy (MARKETBAR_WEBHOOK_URL cfg) = false ->
     Observe.webhooks (snd (create_order cfg env st (CreateOrderRequest.mk (Some lines)))) = []) /\
    (string_truthy (MARKETBAR_WEBHOOK_URL cfg) = true ->
     exists payload,
       Observe.webhooks (snd (create_order cfg env st (CreateOrderRequest.mk (Some lines))))
       = [ (MARKETBAR_WEBHOOK_URL cfg, payload, WEBHOOK_SECRET cfg) ] /\
       WebhookPayload.orderId payload = Order.id order /\
       WebhookPayload.orderId payload = generateId env /\
       WebhookPayload.venueId payload = "pos-sim-venue-001" /\
       WebhookPayload.timestamp payload = toISOString (now env) /\
       map WebhookItem.itemId (WebhookPayload.items payload) = map OrderLine.itemId lines /\
       map WebhookItem.quantity (WebhookPayload.items payload) = map OrderLine.qty lines /\
       map WebhookItem.price (WebhookPayload.items payload)
       = map OrderItem.price (Order.items order) /\
       WebhookPayload.subtotal payload = Order.subtotal order /\
       WebhookPayload.tax payload = Order.tax order /\
       WebhookPayload.total payload = Order.total order).
Proof.
  intros Hne Hr.
  destruct (calculateOrderTotals_returned _ _ _ Hr) as (found & Hfound & _).
  destruct (order_items_follow _ _ _ Hfound) as (_ & Hids & Hqty & _).
  rewrite (create_order_resolved cfg env st lines found Hne Hfound).
  eexists. split; [reflexivity|]. cbn [snd].
  split; [by intros ->|]. intros ->. eexists. split; [reflexivity|].
  cbn [payload_of order_of
       WebhookPayload.orderId WebhookPayload.venueId WebhookPayload.timestamp
       WebhookPayload.items WebhookPayload.subtotal WebhookPayload.tax WebhookPayload.total
       Order.id Order.items Order.subtotal Order.tax Order.total Order.createdAt].
  rewrite !map_map. cbn [WebhookItem.itemId WebhookItem.quantity WebhookItem.price].
  rewrite <- Hids, <- Hqty. repeat split.
Qed.

(** X21 at two IPA and one Margarita, with the webhook configured. *)
Lemma create_order_webhook_witness :
  exists payload,
    Observe.webhooks
      (snd (create_order Sample.hooked Sample.env Sample.stores
              (CreateOrderRequest.mk (Some Sample.two_ipa_one_margarita))))
    = [ ("http://localhost:4000/webhooks/pos", payload, "supersecret") ] /\
    map WebhookItem.quantity (WebhookPayload.items payload) = [2%float; 1%float] /\
    WebhookPayload.total payload = 28.15%float.
Proof.
  assert (exists r,
            calculateOrderTotals Sample.two_ipa_one_margarita (catalog Sample.stores)
            = Return r) as [r Hr] by (eexists; vm_compute; reflexivity).
  destruct (create_order_webhook Sample.hooked Sample.env Sample.stores
              Sample.two_ipa_one_margarita r)
    as (order & Hres & _ & Hon); [discriminate | exact Hr |].
  destruct (Hon eq_refl) as (payload & Hweb & _ & _ & _ & _ & _ & Hqty & _ & _ & _ & Htotal).
  exists payload. split; [exact Hweb|]. split; [exact Hqty|].
  rewrite Htotal. vm_compute in Hres. injection Hres as <-. reflexivity.
Defined.

(** ** Updating an item *)

(** X22.  [PATCH /catalog/items/:id] on an item of the catalog changes the
    fields that the body brings and [updatedAt], and nothing else: the
    identifier and [createdAt] stay, the other items, the orders and the
    promotions stay.  The guardrails are not consulted: the price of the
    body is stored as it is, inside the band or not.  The menu version moves
    by one and the item is broadcast even when the body brings no field at
    all. *)
Theorem update_item_frame
    (env : Env) (st : State) (id : string) (item : CatalogItem.t)
    (body : UpdateItemRequest.t) :
  catalog st !! id = Some item ->
  exists item',
    update_item env st id body
    = (mkState (<[id := item']> (catalog st)) (orders st) (promotions st)
         (menuVersion st + 1),
       mkResponse 200 (ItemBody item'),
       [ Broadcast (WebSocketMessage.mk menu_published
                      (ItemPublished (menuVersion st + 1) item') (toISOString (now env))) ]) /\
    CatalogItem.id item' = CatalogItem.id item /\
    CatalogItem.createdAt item' = CatalogItem.createdAt item /\
    CatalogItem.updatedAt item' = now env /\
    CatalogItem.name item' = default (CatalogItem.name item) (UpdateItemRequest.name body) /\
    CatalogItem.category item'
    = default (CatalogItem.category item) (UpdateItemRequest.category body) /\
    CatalogItem.price item' = default (CatalogItem.price item) (UpdateItemRequest.price body) /\
    CatalogItem.minPrice item'
    = default (CatalogItem.minPrice item) (UpdateItemRequest.minPrice body) /\
    CatalogItem.maxPrice item'
    = default (CatalogItem.maxPrice item) (UpdateItemRequest.maxPrice body) /\
    CatalogItem.taxRate item'
    = default (CatalogItem.taxRate item) (UpdateItemRequest.taxRate body) /\
    CatalogItem.isActive item'
    = default (CatalogItem.isActive item) (UpdateItemRequest.isActive body) /\
    (forall other, other <> id ->
       catalog (after (update_item env st id body)) !! other = catalog st !! other).
Proof.
  intros Hitem. unfold update_item, after. rewrite Hitem.
  eexists. split; [reflexivity|]. cbn [fst catalog].
  repeat (split; [reflexivity|]).
  intros other Hne. by rewrite lookup_insert_ne.
Qed.

(** X22 at the price 100 for the IPA, whose band is from 5 to 12: the
    price update refuses it, the item update stores it. *)
Lemma update_item_frame_witness :
  valid (validatePrice Sample.ipa 100%float false) = false /\
  exists item',
    update_item Sample.env Sample.stores (CatalogItem.id Sample.ipa)
      (UpdateItemRequest.mk None None (Some 100%float) None None None None)
    = (mkState (<[CatalogItem.id Sample.ipa := item']> (catalog Sample.stores))
         (orders Sample.stores) (promotions Sample.stores) 2,
       mkResponse 200 (ItemBody item'),
       [ Broadcast (WebSocketMessage.mk menu_published (ItemPublished 2 item')
                      (toISOString (now Sample.env))) ]) /\
    CatalogItem.price item' = 100%float /\
    CatalogItem.maxPrice item' = 12%float.
Proof.
  split; [reflexivity|].
  destruct (update_item_frame Sample.env Sample.stores (CatalogItem.id Sample.ipa)
              Sample.ipa (UpdateItemRequest.mk None None (Some 100%float) None None None None))
    as (item' & Hrun & _ & _ & _ & _ & _ & Hprice & _ & Hmax & _); [reflexivity|].
  exists item'. split; [exact Hrun|]. split; [exact Hprice | exact Hmax].
Defined.

(** ** Promotions *)

(** X23.  A promotion that is created targets an item that the catalog has
    at that moment, is active, and is filed under the generated identifier
    with the kind and the value of the body, unchecked; a start or an end
    given as the empty string is left out.  The catalog, the orders and the
    menu version stay as they were. *)
Theorem create_promotion_frame
    (env : Env) (st : State) (body : CreatePromotionRequest.t) :
  status (snd (fst (create_promotion env st body))) = 201 ->
  exists promotion,
    create_promotion env st body
    = (mkState (catalog st) (orders st)
         (<[generateId env := promotion]> (promotions st)) (menuVersion st),
       mkResponse 201 (PromotionBody promotion),
       [ Broadcast (WebSocketMessage.mk promotion_created (PromotionCreated promotion)
                      (toISOString (now env))) ]) /\
    Promotion.id promotion = generateId env /\
    is_Some (catalog st !! Promotion.itemId promotion) /\
    Some (Promotion.itemId promotion) = CreatePromotionRequest.itemId body /\
    Some (Promotion.kind promotion) = CreatePromotionRequest.kind body /\
    Some (Promotion.value promotion) = CreatePromotionRequest.value body /\
    Promotion.isActive promotion = true /\
    Promotion.createdAt promotion = now env /\
    Promotion.startsAt promotion = present (CreatePromotionRequest.startsAt body) /\
    Promotion.endsAt promotion = present (CreatePromotionRequest.endsAt body).
Proof.
  unfold create_promotion, fail, reply.
  destruct (present (CreatePromotionRequest.itemId body)) as [itemId|] eqn:Hid;
    [|discriminate].
  assert (CreatePromotionRequest.itemId body = Some itemId) as Hbody.
  { unfold present in Hid. destruct (CreatePromotionRequest.itemId body) as [x|];
      [destruct (string_truthy x)|]; congruence. }
  destruct (CreatePromotionRequest.kind body) as [kind|]; [|discriminate].
  destruct (CreatePromotionRequest.value body) as [value|]; [|discriminate].
  destruct (catalog st !! itemId) as [item|] eqn:Hitem; [|discriminate].
  intros _. eexists. split; [reflexivity|].
  cbn [Promotion.id Promotion.itemId Promotion.kind Promotion.value Promotion.isActive
       Promotion.createdAt Promotion.startsAt Promotion.endsAt].
  rewrite Hitem, Hbody. repeat split. eauto.
Qed.

(** X23 at a promotion of minus 50 percent on the IPA, with an empty
    [startsAt]. *)
Lemma create_promotion_frame_witness :
  exists promotion,
    promotions (after (create_promotion Sample.env Sample.stores
                         (CreatePromotionRequest.mk (Some (CatalogItem.id Sample.ipa))
                            (Some percent_off) (Some (-50)%float) (Some "") None)))
      !! generateId Sample.env = Some promotion /\
    Some (Promotion.value promotion) = Some (-50)%float /\
    Promotion.startsAt promotion = None.
Proof.
  destruct (create_promotion_frame Sample.env Sample.stores
              (CreatePromotionRequest.mk (Some (CatalogItem.id Sample.ipa))
                 (Some percent_off) (Some (-50)%float) (Some "") None))
    as (promotion & Hrun & _ & _ & _ & _ & Hvalue & _ & _ & Hstart & _); [reflexivity|].
  exists promotion. rewrite Hrun. unfold after. cbn [fst promotions].
  rewrite lookup_insert_eq. auto.
Defined.

(** ** The seed catalog *)

(** X24.  When the five generated identifiers are distinct, the catalog of
    the start holds the five seed items, each under its identifier; each is
    active, has the tax rate 0.0825 and a price that its own guardrails
    accept.  There are no orders and no promotions, and the menu version
    is 1. *)
Theorem initial_stores (gen : nat -> string) (now : Date) :
  NoDup (map gen [0; 1; 2; 3; 4]%nat) ->
  size (catalog (initial gen now)) = 5%nat /\
  Forall (fun item =>
            catalog (initial gen now) !! CatalogItem.id item = Some item /\
            CatalogItem.isActive item = true /\
            CatalogItem.taxRate item = 0.0825%float /\
            valid (validatePrice item (CatalogItem.price item) false) = true)
         (getSeedItems gen now) /\
  orders (initial gen now) = ∅ /\
  promotions (initial gen now) = ∅ /\
  menuVersion (initial gen now) = 1.
Proof.
  intros Hids. cbn [map] in Hids.
  repeat match goal with
         | H : NoDup (_ :: _) |- _ => apply NoDup_cons in H as [? H]
         end.
  repeat match goal with
         | H : _ ∉ _ :: _ |- _ => apply not_elem_of_cons in H as [? H]
         end.
  unfold initial, getSeedItems, seed.
  cbn [fold_left catalog orders promotions menuVersion CatalogItem.id].
  split; [|split; [|done]].
  - rewrite !map_size_insert_None, map_size_empty; [reflexivity | by simplify_map_eq ..].
  - repeat constructor; cbn [CatalogItem.id]; by simplify_map_eq.
Qed.

(** X24 with the identifiers [item-0] to [item-4]. *)
Lemma initial_stores_witness :
  size (catalog (initial (fun i => "item-" +:+ digits_of (Z.of_nat i)) Sample.noon)) = 5%nat.
Proof.
  apply (initial_stores (fun i => "item-" +:+ digits_of (Z.of_nat i)) Sample.noon).
  apply (bool_decide_unpack _). vm_compute. exact I.
Defined.

(** * Properties of the socket side *)

Section Clients.
Import Sockets.

Lemma Set_add_elem (ws w : WebSocket) (s : list WebSocket) :
  w ∈ Set_add ws s <-> w = ws \/ w ∈ s.
Proof.
  unfold Set_add. case_bool_decide as Hin.
  - split; [auto | intros [->|]; auto].
  - rewrite elem_of_app, list_elem_of_singleton. tauto.
Qed.

Lemma Set_delete_elem (ws w : WebSocket) (s : list WebSocket) :
  w ∈ Set_delete ws s <-> w <> ws /\ w ∈ s.
Proof. unfold Set_delete. by rewrite list_elem_of_filter. Qed.

Lemma Set_add_NoDup (ws : WebSocket) (s : list WebSocket) :
  NoDup s -> NoDup (Set_add ws s).
Proof.
  intros Hs. unfold Set_add. case_bool_decide as Hin; [exact Hs|].
  apply NoDup_app. split; [exact Hs|]. split; [|apply NoDup_singleton].
  intros w Hw ->%list_elem_of_singleton. contradiction.
Qed.

Lemma Set_delete_NoDup (ws : WebSocket) (s : list WebSocket) :
  NoDup s -> NoDup (Set_delete ws s).
Proof. apply NoDup_filter. Qed.

Lemma on_event_NoDup (s : list WebSocket) (e : SocketEvent) :
  NoDup s -> NoDup (on_event s e).
Proof. destruct e; simpl; auto using Set_add_NoDup, Set_delete_NoDup. Qed.

Lemma clients_NoDup (events : list SocketEvent) :
  forall s, NoDup s -> NoDup (fold_left on_event events s).
Proof.
  induction events as [|e events IH]; intros s Hs; simpl; [exact Hs|].
  apply IH, on_event_NoDup, Hs.
Qed.

(** The members of [wsClients] are the sockets whose last event was a
    connection. *)
Lemma clients_registered (events : list SocketEvent) (ws : WebSocket) :
  forall s,
    ws ∈ fold_left on_event events s
    <-> Observe.registered events ws (bool_decide (ws ∈ s)) = true.
Proof.
  induction events as [|e events IH]; intros s; simpl.
  - by rewrite bool_decide_eq_true.
  - rewrite IH. unfold on_close, on_error.
    destruct e as [w|w|w]; simpl;
      (destruct (decide (w = ws)) as [->|Hne];
       [ rewrite (bool_decide_eq_true_2 (ws = ws)) by reflexivity
       | rewrite (bool_decide_eq_false_2 (w = ws)) by exact Hne ]);
      match goal with
      | |- Observe.registered _ _ ?a = true <-> Observe.registered _ _ ?b = true =>
          replace a with b; [reflexivity|]
      end;
      first [ symmetry; apply bool_decide_eq_true; apply Set_add_elem; by left
            | symmetry; apply bool_decide_eq_false; rewrite Set_delete_elem; tauto
            | apply bool_decide_ext; rewrite Set_add_elem; intuition congruence
            | apply bool_decide_ext; rewrite Set_delete_elem; intuition congruence ].
Qed.

End Clients.

(** X25.  A broadcast reaches a socket exactly when the last thing that
    happened to the socket was its connection (no close and no error since)
    and its [readyState] is [OPEN] at the time of the call; it then gets the
    message once.  No other socket gets anything, and nobody gets anything
    else than the message. *)
Theorem broadcast_reaches_open_members
    (events : list Sockets.SocketEvent) (readyState : Sockets.WebSocket -> Sockets.ReadyState)
    (message : WebSocketMessage.t) :
  NoDup (Sockets.broadcast readyState (Sockets.clients_after events) message) /\
  (forall ws frame,
     (ws, frame) ∈ Sockets.broadcast readyState (Sockets.clients_after events) message
     <-> Observe.registered events ws false = true /\
         readyState ws = Sockets.OPEN /\
         frame = Sockets.Published message).
Proof.
  unfold Sockets.broadcast, Sockets.clients_after. split.
  - apply NoDup_fmap_2; [by intros ? ? [=]|].
    apply NoDup_filter, clients_NoDup, NoDup_nil_2.
  - intros ws frame. rewrite list_elem_of_fmap. split.
    + intros (w & [= -> ->] & Hw). apply list_elem_of_filter in Hw as [Hopen Hin].
      apply clients_registered in Hin. rewrite bool_decide_eq_false_2 in Hin by apply not_elem_of_nil.
      split; [exact Hin|]. split; [|reflexivity].
      by destruct (readyState w).
    + intros (Hreg & Hopen & ->). exists ws. split; [reflexivity|].
      apply list_elem_of_filter. split; [by rewrite Hopen|].
      apply clients_registered. by rewrite bool_decide_eq_false_2 by apply not_elem_of_nil.
Qed.

(** X26.  Closing a socket, or an error on it, takes it out of [wsClients]
    and leaves the others in, in their order; doing so again, or for a
    socket that never connected, changes nothing.  A socket that connects is
    sent one frame, [connected] with the current menu version, and joins
    behind the members already there. *)
Theorem socket_joins_and_leaves
    (now : Date) (st : State) (ws : Sockets.WebSocket) (wsClients : list Sockets.WebSocket) :
  Sockets.on_error ws wsClients = Sockets.on_close ws wsClients /\
  (ws ∉ Sockets.on_close ws wsClients) /\
  Sockets.on_close ws (Sockets.on_close ws wsClients) = Sockets.on_close ws wsClients /\
  (ws ∉ wsClients -> Sockets.on_close ws wsClients = wsClients) /\
  Sockets.on_close ws wsClients = filter (fun w => w <> ws) wsClients /\
  snd (Sockets.on_connection now st ws wsClients)
  = [(ws, Sockets.Connected (menuVersion st) (toISOString now))] /\
  (ws ∈ fst (Sockets.on_connection now st ws wsClients)) /\
  (ws ∈ wsClients -> fst (Sockets.on_connection now st ws wsClients) = wsClients) /\
  (ws ∉ wsClients -> fst (Sockets.on_connection now st ws wsClients) = wsClients ++ [ws]).
Proof.
  unfold Sockets.on_error, Sockets.on_close, Sockets.on_connection, Sockets.Set_delete.
  cbn [fst snd].
  split; [reflexivity|]. split; [|split; [|split; [|split; [reflexivity|]]]].
  - rewrite list_elem_of_filter. tauto.
  - apply list_filter_filter_l. tauto.
  - intros Hout. induction wsClients as [|w l IH]; [reflexivity|].
    rewrite filter_cons. apply not_elem_of_cons in Hout as [Hne Hout].
    rewrite decide_True by auto. by rewrite IH.
  - split; [reflexivity|]. split; [apply Set_add_elem; by left|].
    unfold Sockets.Set_add. split; intros H.
    + by rewrite bool_decide_eq_true_2.
    + by rewrite bool_decide_eq_false_2.
Qed.

(** ** From a request to the sockets *)

Lemma deliver_none readyState wsClients effects :
  Observe.broadcasts effects = [] ->
  Sockets.deliver readyState wsClients effects = [].
Proof.
  unfold Sockets.deliver, Observe.broadcasts.
  induction effects as [|[m|u p s] effects IH]; simpl; [reflexivity | discriminate | exact IH].
Qed.

Lemma deliver_one readyState wsClients effects m :
  Observe.broadcasts effects = [m] ->
  Sockets.deliver readyState wsClients effects = Sockets.broadcast readyState wsClients m.
Proof.
  induction effects as [|[m'|u p s] effects IH]; [discriminate | | exact IH].
  unfold Observe.broadcasts. cbn [omap]. intros [= -> Hrest].
  unfold Sockets.deliver. cbn [flat_map].
  fold (Sockets.deliver readyState wsClients effects).
  rewrite (deliver_none _ _ _ Hrest). apply app_nil_r.
Qed.

(** X27.  What a request sends to the sockets: nothing when it is refused;
    when it is carried out, one message, once to each socket that is a
    member of [wsClients] with its [readyState] at [OPEN], in the order in
    which they joined, and to nobody else. *)
Theorem request_reaches_sockets
    (cfg : Config) (env : Env) (st : State) (req : Request)
    (events : list Sockets.SocketEvent)
    (readyState : Sockets.WebSocket -> Sockets.ReadyState) :
  (400 <= status (snd (fst (handle cfg env st req))) /\
   (Sockets.deliver readyState (Sockets.clients_after events) (snd (handle cfg env st req))
    = []))
  \/
  (status (snd (fst (handle cfg env st req))) < 400 /\
   exists m,
     (Observe.broadcasts (snd (handle cfg env st req)) = [m]) /\
     (Sockets.deliver readyState (Sockets.clients_after events) (snd (handle cfg env st req))
      = map (fun ws => (ws, Sockets.Published m))
          (filter (fun ws => Sockets.is_open (readyState ws) = true)
             (Sockets.clients_after events))) /\
     NoDup (filter (fun ws => Sockets.is_open (readyState ws) = true)
              (Sockets.clients_after events))).
Proof.
  destruct (handle_outcome cfg env st req) as [(Hcode & _ & Heff)|(Hcode & Hone & _)].
  - left. split; [exact Hcode|]. by rewrite Heff.
  - right. split; [lia|].
    destruct (Observe.broadcasts (snd (handle cfg env st req))) as [|m [|m' l]] eqn:Hb;
      try discriminate.
    exists m. split; [reflexivity|]. rewrite (deliver_one _ _ _ _ Hb).
    split; [reflexivity|].
    apply NoDup_filter, clients_NoDup, NoDup_nil_2.
Qed.
